(** * Chick mash price advisor: a shallow embedding of
      [myapp/chickmash.py] and [myapp/views.py]

    The predictor wraps a fitted Prophet model (an opaque artefact loaded
    from disk) and post-processes its forecasts: a month horizon is computed
    from the training cut-off, one forecast row is extracted per month, the
    twelve months of a year are ranked by price, and several years are
    flattened into a chart series.  The request layer validates the year
    and wraps results and failures into JSON envelopes.

    Conventions of the embedding.
    - Python [int] is [Z].
    - A forecast value or a price is kept as the exact rational [Q] it
      denotes; [round(x, 2)] on it is rounding to the nearest hundredth,
      ties to even.  The arithmetic of [get_best_months] is done on IEEE
      binary64 doubles ([PrimFloat.float]), each price entering it as the
      double nearest to it; true division by zero raises
      [ZeroDivisionError], as it does in Python.
    - Exceptions are values ([exn]); every method is a computation in a
      state-and-error monad whose state is the trace of calls made to the
      external collaborators (the model and the plotting library).
    - The model, the wall clock and the builtin [int] parser are parameters
      of the sections that use them. *)

From Stdlib Require Import ZArith QArith Qround List String Ascii Bool Lia.
From Stdlib Require Import Permutation Sorted DecimalString Lqa.
From Stdlib Require Import PrimFloat.
From Stdlib Require FloatOps SpecFloat.

Set Warnings "-inexact-float".
Import ListNotations.

Local Open Scope string_scope.
Local Open Scope Z_scope.

(** ** Exceptions and results *)

(** A raised exception: its class name and its message ([str(e)]). *)
Record exn : Type := PyExc { exn_class : string; exn_str : string }.

Definition ValueError (msg : string) : exn := PyExc "ValueError" msg.
Definition OverflowError (msg : string) : exn := PyExc "OverflowError" msg.
Definition ZeroDivisionError (msg : string) : exn := PyExc "ZeroDivisionError" msg.
Definition IndexError (msg : string) : exn := PyExc "IndexError" msg.
Definition Exception (msg : string) : exn := PyExc "Exception" msg.

Inductive result (A : Type) : Type :=
| Ok (a : A)
| Err (e : exn).
Arguments Ok {A} a.
Arguments Err {A} e.

(** ** The trace of external calls *)

(** [ModelForecast p]: the model was asked for a forecast [p] periods past
    its training data ([make_future_dataframe] followed by [predict]).
    [Plot labels prices]: [plt.plot] was handed this series. *)
Inductive event : Type :=
| ModelForecast (periods : Z)
| Plot (labels : list string) (prices : list Q).

Definition trace := list event.

(** ** The monad of the predictor's methods *)

Definition M (A : Type) : Type := trace -> result A * trace.

Definition ret {A} (a : A) : M A := fun t => (Ok a, t).

Definition raise {A} (e : exn) : M A := fun t => (Err e, t).

Definition bind {A B} (m : M A) (k : A -> M B) : M B :=
  fun t => match m t with
           | (Ok a, t') => k a t'
           | (Err e, t') => (Err e, t')
           end.

Definition lift {A} (r : result A) : M A := fun t => (r, t).

Definition emit (e : event) : M unit := fun t => (Ok tt, (t ++ [e])%list).

Notation "x <- m ;; k" := (bind m (fun x => k))
  (at level 61, m at next level, right associativity).
Notation "m ;;; k" := (bind m (fun _ => k))
  (at level 61, right associativity).

(** [try: body except Exception as e: raise Exception(f"<prefix>{e}")]. *)
Definition try_reraise {A} (prefix : string) (body : M A) : M A :=
  fun t => match body t with
           | (Ok a, t') => (Ok a, t')
           | (Err e, t') => (Err (Exception (prefix ++ exn_str e)), t')
           end.

(** [for x in xs: acc = body(acc, x)], stopping at the first exception. *)
Fixpoint for_each {A B} (xs : list A) (body : B -> A -> M B) (acc : B) : M B :=
  match xs with
  | [] => ret acc
  | x :: xs' => acc' <- body acc x ;; for_each xs' body acc'
  end.

(** ** Builtins *)

(** [range(lo, hi)]. *)
Definition range (lo hi : Z) : list Z :=
  map (fun i => lo + Z.of_nat i) (seq 0 (Z.to_nat (hi - lo))).

(** [str(n)] for an [int]. *)
Definition str (n : Z) : string := NilZero.string_of_int (Z.to_int n).

(** [s[:n]] on a string. *)
Definition str_prefix (n : nat) (s : string) : string := substring 0 n s.

(** [s[-n:]] on a string: the last [n] characters, the whole string when it
    is shorter. *)
Definition str_suffix (n : nat) (s : string) : string :=
  substring (String.length s - n) n s.

(** [l[:n]] and [l[-n:]] on a list. *)
Definition slice_to {A} (n : nat) (l : list A) : list A := firstn n l.
Definition slice_last {A} (n : nat) (l : list A) : list A :=
  skipn (List.length l - n) l.

(** [l[0]] and [l[-1]], raising [IndexError] on the empty list. *)
Definition index_first {A} (l : list A) : result A :=
  match l with
  | [] => Err (IndexError "list index out of range")
  | x :: _ => Ok x
  end.

Definition index_last {A} (l : list A) : result A :=
  match rev l with
  | [] => Err (IndexError "list index out of range")
  | x :: _ => Ok x
  end.

(** [d.get(key, default)] on a dict with string keys. *)
Fixpoint dict_get {V} (d : list (string * V)) (key : string) (default : V) : V :=
  match d with
  | [] => default
  | (k, v) :: d' => if String.eqb k key then v else dict_get d' key default
  end.

(** [d[key] = v] on a dict with [int] keys; a Python dict keeps insertion
    order, and assigning to an existing key keeps the key's position. *)
Fixpoint dict_set {V} (d : list (Z * V)) (key : Z) (v : V) : list (Z * V) :=
  match d with
  | [] => [(key, v)]
  | (k, w) :: d' => if k =? key then (k, v) :: d' else (k, w) :: dict_set d' key v
  end.

(** ** Arithmetic on prices *)

(** Nearest integer, ties to even. *)
Definition round_half_even (q : Q) : Z :=
  let n := Qnum q in
  let d := Zpos (Qden q) in
  let f := n / d in
  match (2 * (n mod d)) ?= d with
  | Lt => f
  | Gt => f + 1
  | Eq => if Z.even f then f else f + 1
  end.

(** [round(q, 2)] on the exact value of a forecast: the hundredth it
    rounds to.  The double Python returns is the one nearest to it
    ([as_float] below). *)
Definition round2 (q : Q) : Q :=
  Qred (inject_Z (round_half_even (q * 100)) / 100).

(** *** Doubles

    The double nearest to a rational (ties to even): exact integers
    divided with a single rounding. *)
Definition as_float (q : Q) : PrimFloat.float :=
  FloatOps.SF2Prim
    match Qnum q with
    | Z0 => SpecFloat.S754_zero false
    | Zpos n =>
        SpecFloat.SFdiv FloatOps.prec FloatOps.emax
          (SpecFloat.S754_finite false n 0)
          (SpecFloat.S754_finite false (Qden q) 0)
    | Zneg n =>
        SpecFloat.SFdiv FloatOps.prec FloatOps.emax
          (SpecFloat.S754_finite true n 0)
          (SpecFloat.S754_finite false (Qden q) 0)
    end.

(** The rational a finite double denotes. *)
Definition exact_value (x : PrimFloat.float) : option Q :=
  match FloatOps.Prim2SF x with
  | SpecFloat.S754_zero _ => Some 0%Q
  | SpecFloat.S754_finite s m e =>
      let z := if s then Zneg m else Zpos m in
      Some match e with
           | Zneg p => z # (2 ^ p)
           | _ => inject_Z (z * 2 ^ e)
           end
  | _ => None
  end.

(** [round(x, 2)] on a double: infinities and NaN are returned as they
    are; a finite double is rounded, on its exact value, to the nearest
    hundredth with ties to even, and the result is the double nearest to
    that hundredth, a zero keeping the sign of [x]. *)
Definition float_round2 (x : PrimFloat.float) : PrimFloat.float :=
  match FloatOps.Prim2SF x, exact_value x with
  | SpecFloat.S754_finite s _ _, Some q =>
      if Qeq_bool (round2 q) 0 then (if s then (-0)%float else 0%float)
      else as_float (round2 q)
  | _, _ => x
  end.

(** [sum(l)]: Python starts from the integer 0 and adds from the left,
    one double addition per element (CPython up to 3.11; later versions
    compensate the rounding errors). *)
Definition sum (l : list PrimFloat.float) : PrimFloat.float :=
  fold_left PrimFloat.add l 0%float.

(** True division [a / b] of doubles: a zero divisor of either sign
    raises. *)
Definition truediv (a b : PrimFloat.float) : result PrimFloat.float :=
  if PrimFloat.is_zero b then
    Err (ZeroDivisionError "float division by zero")
  else Ok (a / b)%float.

(** ** Dates *)

Module Date.

Record t : Type := mk { year : Z; month : Z; day : Z }.

Definition MINYEAR : Z := 1.
Definition MAXYEAR : Z := 9999.

Definition is_leap (y : Z) : bool :=
  (y mod 4 =? 0) && (negb (y mod 100 =? 0) || (y mod 400 =? 0)).

Definition days_in_month (y m : Z) : Z :=
  if m =? 2 then (if is_leap y then 29 else 28)
  else if (m =? 4) || (m =? 6) || (m =? 9) || (m =? 11) then 30
  else 31.

(** The C-level conversion of one argument of [datetime(...)] to a C
    [int], going through a 64-bit C [long]: the exception it raises, if
    any. *)
Definition int_arg_error (z : Z) : option exn :=
  if (z <? - 2 ^ 63) || (2 ^ 63 - 1 <? z) then
    Some (OverflowError "Python int too large to convert to C long")
  else if 2 ^ 31 - 1 <? z then
    Some (OverflowError "signed integer is greater than maximum")
  else if z <? - 2 ^ 31 then
    Some (OverflowError "signed integer is less than minimum")
  else None.

(** [datetime(year, month, day)]: the arguments are converted in order,
    then the year, the month and the day are checked in order. *)
Definition datetime (y m d : Z) : result t :=
  match int_arg_error y with
  | Some e => Err e
  | None =>
  match int_arg_error m with
  | Some e => Err e
  | None =>
  match int_arg_error d with
  | Some e => Err e
  | None =>
      if negb ((MINYEAR <=? y) && (y <=? MAXYEAR)) then
        Err (ValueError ("year " ++ str y ++ " is out of range"))
      else if negb ((1 <=? m) && (m <=? 12)) then
        Err (ValueError "month must be in 1..12")
      else if negb ((1 <=? d) && (d <=? days_in_month y m)) then
        Err (ValueError "day is out of range for month")
      else Ok (mk y m d)
  end end end.

Definition month_names : list string :=
  ["January"; "February"; "March"; "April"; "May"; "June"; "July";
   "August"; "September"; "October"; "November"; "December"].

(** [d.strftime('%B')] in the C locale. *)
Definition strftime_B (d : t) : string :=
  nth (Z.to_nat (month d - 1)) month_names "".

(** [d.strftime('%B %Y')]. *)
Definition strftime_B_Y (d : t) : string :=
  strftime_B d ++ " " ++ str (year d).

(** [pd.Period(d, freq='M')]: the month a date falls in. *)
Definition to_period (d : t) : Z * Z := (year d, month d).

End Date.

(** ** Data of the predictor *)

(** One row of the forecast table returned by the model: columns [ds]
    (reduced to its monthly period, which is all the predictor reads),
    [yhat], [yhat_lower], [yhat_upper]. *)
Record forecast_row : Type := mk_row {
  ds : Z * Z;
  yhat : Q;
  yhat_lower : Q;
  yhat_upper : Q
}.

(** The dict returned by [_predict_month]; absent keys are [None]. *)
Record prediction : Type := mk_prediction {
  month : string;
  year : Z;
  predicted_price : Q;
  lower_bound : option Q;
  upper_bound : option Q;
  note : option string
}.

(** An entry of ['best_buy_months'] / ['best_sell_months']. *)
Record recommendation : Type := mk_recommendation {
  rec_month : string;
  price : Q;
  reason : string
}.

(** The ['profit_analysis'] dict: the two averages and the margin are
    results of double arithmetic, the annual low and high are prices. *)
Record profit_analysis_t : Type := mk_profit_analysis {
  average_buy_price : PrimFloat.float;
  average_sell_price : PrimFloat.float;
  potential_profit_margin : PrimFloat.float;
  annual_low : Q;
  annual_high : Q
}.

(** The double in which an entry's price takes part in arithmetic. *)
Definition price_double (m : prediction) : PrimFloat.float :=
  as_float (predicted_price m).

(** The dict returned by [get_best_months]. *)
Record best_months_t : Type := mk_best_months {
  bm_year : Z;
  best_buy_months : list recommendation;
  best_sell_months : list recommendation;
  profit_analysis : profit_analysis_t
}.

Definition period_eqb (p q : Z * Z) : bool :=
  (fst p =? fst q) && (snd p =? snd q).

(** ** [sorted(l, key=...)]

    Python's [sorted] is a stable ascending sort that compares keys with
    [<] only.  It is embedded as the insertion sort that puts an element
    after every element whose key is not greater. *)

Definition Qltb (a b : Q) : bool := negb (Qle_bool b a).

Section Sorted.
Context {A : Type}.
Variable key : A -> Q.

Fixpoint insert_by (x : A) (l : list A) : list A :=
  match l with
  | [] => [x]
  | y :: l' => if Qltb (key x) (key y) then x :: y :: l'
               else y :: insert_by x l'
  end.

Definition sorted (l : list A) : list A :=
  fold_left (fun acc x => insert_by x acc) l [].

(** Ascending order of keys. *)
Definition key_le (a b : A) : Prop := (key a <= key b)%Q.
End Sorted.

(** ** The predictor: [class ChickMashPredictor] *)

Section Predictor.

(** [self.model]: asked for [periods] monthly periods past its training
    data, the fitted model returns a forecast table or raises.  The two
    calls [make_future_dataframe(periods, freq='M')] and [predict(future)]
    are one request to the black box. *)
Variable model : Z -> result (list forecast_row).

(** [datetime.now().year] and
    [datetime.now().strftime("%Y%m%d_%H%M%S")]. *)
Variable now_year : Z.
Variable now_stamp : string.

Definition model_forecast (periods : Z) : M (list forecast_row) :=
  emit (ModelForecast periods) ;;; lift (model periods).

(** [pd.to_datetime('2024-12-01')]. *)
Definition last_training_date : Date.t := Date.mk 2024 12 1.

(** The horizon of line 44. *)
Definition months_ahead_of (target_date : Date.t) : Z :=
  (Date.year target_date - Date.year last_training_date) * 12
  + (Date.month target_date - Date.month last_training_date).

Definition _predict_month (year_ month_ : Z) : M prediction :=
  try_reraise "Month prediction failed: " (
    target_date <- lift (Date.datetime year_ month_ 1) ;;
    let months_ahead := months_ahead_of target_date in
    if months_ahead <=? 0 then
      ret {| month := Date.strftime_B target_date;
             year := year_;
             predicted_price := 0;
             lower_bound := None;
             upper_bound := None;
             note := Some "Historical data" |}
    else
      forecast <- model_forecast months_ahead ;;
      let target_prediction :=
        filter (fun r => period_eqb (ds r) (Date.to_period target_date))
               forecast in
      if (List.length target_prediction =? 0)%nat then
        raise (ValueError ("No prediction found for "
                           ++ Date.strftime_B_Y target_date))
      else
        prediction_data <- lift (index_first target_prediction) ;;
        ret {| month := Date.strftime_B target_date;
               year := year_;
               predicted_price := round2 (yhat prediction_data);
               lower_bound := Some (round2 (yhat_lower prediction_data));
               upper_bound := Some (round2 (yhat_upper prediction_data));
               note := None |}).

Definition predict_year (year_ : Z) : M (list prediction) :=
  try_reraise "Year prediction failed: " (
    for_each (range 1 13)
      (fun predictions month_ =>
         prediction_ <- _predict_month year_ month_ ;;
         ret (predictions ++ [prediction_])%list)
      []).

Definition buy_reasons : list (string * string) :=
  [("January", "Post-holiday prices usually drop");
   ("February", "Short month, stable low prices");
   ("March", "Before peak season price rise");
   ("April", "Good pre-rainy season prices");
   ("May", "Planting season, lower demand");
   ("June", "Mid-year price stability");
   ("July", "Strategic buying opportunity");
   ("August", "Pre-harvest favorable prices");
   ("September", "Harvest begins, supply increases");
   ("October", "Typically the lowest prices");
   ("November", "Before holiday price surge");
   ("December", "Avoid - holiday premium prices")].

Definition _get_buy_reason (month_ : string) : string :=
  dict_get buy_reasons month_ "Good buying conditions".

Definition sell_reasons : list (string * string) :=
  [("January", "New year demand recovery");
   ("February", "Valentine season demand");
   ("March", "Peak season highest prices");
   ("April", "Easter holiday demand");
   ("May", "Pre-planting demand spike");
   ("June", "Mid-year budget spending");
   ("July", "Stable high demand period");
   ("August", "Back-to-school demand");
   ("September", "Post-harvest demand rise");
   ("October", "Pre-holiday stocking begins");
   ("November", "Holiday preparation peak");
   ("December", "Highest holiday season prices")].

Definition _get_sell_reason (month_ : string) : string :=
  dict_get sell_reasons month_ "High demand period".

Definition buy_entry (m : prediction) : recommendation :=
  {| rec_month := month m;
     price := predicted_price m;
     reason := _get_buy_reason (month m) |}.

Definition sell_entry (m : prediction) : recommendation :=
  {| rec_month := month m;
     price := predicted_price m;
     reason := _get_sell_reason (month m) |}.

(** Lines 79-113 of [get_best_months]: what is done with the year's
    predictions once [predict_year] has returned them. *)
Definition rank_year (year_ : Z) (predictions : list prediction)
  : M best_months_t :=
  let sorted_predictions := sorted predicted_price predictions in
  let best_buy := slice_to 3 sorted_predictions in
  let best_sell := slice_last 3 sorted_predictions in
  avg_buy <- lift (truediv (sum (map price_double best_buy)) 3) ;;
  avg_sell <- lift (truediv (sum (map price_double best_sell)) 3) ;;
  ratio <- lift (truediv (avg_sell - avg_buy) avg_buy) ;;
  let profit_margin := (ratio * 100)%float in
  low <- lift (index_first best_buy) ;;
  high <- lift (index_last best_sell) ;;
  ret {| bm_year := year_;
         best_buy_months := map buy_entry best_buy;
         best_sell_months := map sell_entry best_sell;
         profit_analysis :=
           {| average_buy_price := float_round2 avg_buy;
              average_sell_price := float_round2 avg_sell;
              potential_profit_margin := float_round2 profit_margin;
              annual_low := predicted_price low;
              annual_high := predicted_price high |} |}.

Definition get_best_months (year_ : Z) : M best_months_t :=
  try_reraise "Best months analysis failed: " (
    predictions <- predict_year year_ ;;
    rank_year year_ predictions).

Definition get_multi_year_predictions (years : Z)
  : M (list (Z * list prediction)) :=
  try_reraise "Multi-year prediction failed: " (
    let current_year := now_year in
    for_each (range current_year (current_year + years))
      (fun all_predictions year_ =>
         predictions <- predict_year year_ ;;
         ret (dict_set all_predictions year_ predictions))
      []).

(** The label of line 144. *)
Definition chart_label (year_ : Z) (month_data : prediction) : string :=
  str_prefix 3 (month month_data) ++ " " ++ str_suffix 2 (str year_).

(** Lines 139-146: the two parallel lists handed to [plt.plot]. *)
Definition chart_series (predictions : list (Z * list prediction))
  : list string * list Q :=
  fold_left
    (fun acc entry =>
       let '(year_, months_data) := entry in
       fold_left
         (fun acc' month_data =>
            let '(all_months, all_prices) := acc' in
            ((all_months ++ [chart_label year_ month_data])%list,
             (all_prices ++ [predicted_price month_data])%list))
         months_data acc)
    predictions ([], []).

(** The figure set-up, styling and [savefig] calls have no effect on the
    values modelled here; the series given to [plt.plot] is recorded in
    the trace. *)
Definition generate_price_chart (years : Z) : M string :=
  try_reraise "Chart generation failed: " (
    predictions <- get_multi_year_predictions years ;;
    let '(all_months, all_prices) := chart_series predictions in
    emit (Plot all_months all_prices) ;;;
    let chart_path := "chickmash_predictions_" ++ now_stamp ++ ".png" in
    ret chart_path).

End Predictor.

(** The module-level instance [chickmash_predictor], as the request layer
    sees it: an object with three methods. *)
Record predictor_t : Type := mk_predictor {
  p_get_best_months : Z -> M best_months_t;
  p_get_multi_year_predictions : Z -> M (list (Z * list prediction));
  p_generate_price_chart : Z -> M string
}.

Definition ChickMashPredictor (model : Z -> result (list forecast_row))
    (now_year : Z) (now_stamp : string) : predictor_t :=
  {| p_get_best_months := get_best_months model;
     p_get_multi_year_predictions := get_multi_year_predictions model now_year;
     p_generate_price_chart := generate_price_chart model now_year now_stamp |}.

(** ** The request layer: [views.py] *)

Record HttpRequest : Type := mk_request { GET : list (string * string) }.

(** [QueryDict.get(key)]: the last value given for the key, if any. *)
Fixpoint QueryDict_get (q : list (string * string)) (key : string)
  : option string :=
  match q with
  | [] => None
  | (k, v) :: q' =>
      match QueryDict_get q' key with
      | Some w => Some w
      | None => if String.eqb k key then Some v else None
      end
  end.

(** The ['data'] member of a success envelope, one shape per view. *)
Inductive payload : Type :=
| BuyData (best_buy : list recommendation) (analysis : profit_analysis_t)
          (year_ : Z)
| SellData (best_sell : list recommendation) (analysis : profit_analysis_t)
           (year_ : Z)
| PredictionsData (predictions : list (Z * list prediction))
| ChartData (chart_path chart_url : string)
| CompleteData (year_analysis : best_months_t)
               (multi_year_predictions : list (Z * list prediction))
               (path url : string).

Record JsonResponse : Type := mk_response {
  status : Z;
  success : bool;
  data : option payload;
  error : option string;
  message : option string
}.

Definition json_error (msg : string) (code : Z) : JsonResponse :=
  {| status := code; success := false; data := None;
     error := Some msg; message := None |}.

Definition json_success (d : payload) (msg : string) : JsonResponse :=
  {| status := 200; success := true; data := Some d;
     error := None; message := Some msg |}.

(** [os.path.basename]: what follows the last slash. *)
Fixpoint basename_from (acc s : string) : string :=
  match s with
  | EmptyString => acc
  | String c s' =>
      if Ascii.eqb c "/" then basename_from "" s'
      else basename_from (acc ++ String c "") s'
  end.

Definition basename (s : string) : string := basename_from "" s.

Module views.
Section Views.

(** The builtin [int] applied to a query-string value. *)
Variable int_of_str : string -> result Z.

(** [datetime.now().year]. *)
Variable now_year : Z.

Variable chickmash_predictor : predictor_t.

(** [int(request.GET.get(key, default))] with an [int] default. *)
Definition int_param (request : HttpRequest) (key : string) (default : Z)
  : M Z :=
  match QueryDict_get (GET request) key with
  | Some s => lift (int_of_str s)
  | None => ret default
  end.

(** [try: body except Exception as e: return JsonResponse(..., status=500)]. *)
Definition try_500 (body : M JsonResponse) : M JsonResponse :=
  fun t => match body t with
           | (Ok r, t') => (Ok r, t')
           | (Err e, t') => (Ok (json_error (exn_str e) 500), t')
           end.

Definition best_buy_months (request : HttpRequest) : M JsonResponse :=
  try_500 (
    year_ <- int_param request "year" now_year ;;
    if year_ <? now_year then
      ret (json_error "Cannot analyze past years" 400)
    else
      result_ <- p_get_best_months chickmash_predictor year_ ;;
      ret (json_success
             (BuyData (best_buy_months result_) (profit_analysis result_) year_)
             ("Best months to buy chicken mash in " ++ str year_))).

Definition best_sell_months (request : HttpRequest) : M JsonResponse :=
  try_500 (
    year_ <- int_param request "year" now_year ;;
    if year_ <? now_year then
      ret (json_error "Cannot analyze past years" 400)
    else
      result_ <- p_get_best_months chickmash_predictor year_ ;;
      ret (json_success
             (SellData (best_sell_months result_) (profit_analysis result_) year_)
             ("Best months to sell chicken mash in " ++ str year_))).

Definition price_predictions (request : HttpRequest) : M JsonResponse :=
  try_500 (
    years <- int_param request "years" 3 ;;
    predictions <- p_get_multi_year_predictions chickmash_predictor years ;;
    ret (json_success (PredictionsData predictions)
           ("Price predictions for next " ++ str years ++ " years"))).

Definition generate_price_chart (request : HttpRequest) : M JsonResponse :=
  try_500 (
    years <- int_param request "years" 3 ;;
    chart_path <- p_generate_price_chart chickmash_predictor years ;;
    ret (json_success
           (ChartData chart_path ("/media/" ++ basename chart_path))
           ("Price chart generated for " ++ str years ++ " years"))).

Definition complete_analysis (request : HttpRequest) : M JsonResponse :=
  try_500 (
    year_ <- int_param request "year" now_year ;;
    chart_years <- int_param request "chart_years" 3 ;;
    best_months <- p_get_best_months chickmash_predictor year_ ;;
    predictions <- p_get_multi_year_predictions chickmash_predictor chart_years ;;
    chart_path <- p_generate_price_chart chickmash_predictor chart_years ;;
    ret (json_success
           (CompleteData best_months predictions chart_path
              ("/media/" ++ basename chart_path))
           ("Complete chicken mash analysis for " ++ str year_))).

End Views.
End views.

(** ** Concrete collaborators used to run the code *)

(** The period [i] months after December 2024. *)
Definition period_after_cutoff (i : Z) : Z * Z :=
  let total := 2024 * 12 + 11 + i in (total / 12, total mod 12 + 1).

(** A model whose forecast for [periods] periods has one row per month
    after the cut-off, priced by [f year month]. *)
Definition table_model (f : Z -> Z -> Q) (periods : Z)
  : result (list forecast_row) :=
  Ok (map (fun i => let p := period_after_cutoff i in
                    {| ds := p; yhat := f (fst p) (snd p);
                       yhat_lower := f (fst p) (snd p) - 1;
                       yhat_upper := f (fst p) (snd p) + 1 |})
          (range 1 (periods + 1))).

(** A model that always fails. *)
Definition broken_model (periods : Z) : result (list forecast_row) :=
  Err (PyExc "RuntimeError" "model unavailable").

(** Prices 10, 20, ..., 120 for January to December of every year. *)
Definition ramp_model : Z -> result (list forecast_row) :=
  table_model (fun _ m => inject_Z (10 * m)).

(** 10 in January and 11 in every other month. *)
Definition tie_model : Z -> result (list forecast_row) :=
  table_model (fun _ m => if m =? 1 then 10%Q else 11%Q).

(** -0.2, -0.1 and 0.3 in the first three months, 1 afterwards. *)
Definition cancelling_model : Z -> result (list forecast_row) :=
  table_model (fun _ m => if m =? 1 then -2 # 10
                          else if m =? 2 then -1 # 10
                          else if m =? 3 then 3 # 10 else 1%Q).

(** 10^308 every month. *)
Definition huge_model : Z -> result (list forecast_row) :=
  table_model (fun _ _ => inject_Z (10 ^ 308)).

(** The same price, 50, every month. *)
Definition flat_model : Z -> result (list forecast_row) :=
  table_model (fun _ _ => 50%Q).

(** A model that knows the twelve months after the cut-off and fails
    beyond them. *)
Definition short_model (periods : Z) : result (list forecast_row) :=
  if periods <=? 12 then ramp_model periods
  else Err (PyExc "RuntimeError" "horizon too long").

(** A fragment of [int]: it reads plain strings of decimal digits and
    rejects everything else, signs, blanks and underscores included; it is
    only used to run the views on parameters made of digits or letters. *)
Fixpoint digits_value (acc : Z) (s : string) : option Z :=
  match s with
  | EmptyString => Some acc
  | String c s' =>
      let n := Z.of_nat (nat_of_ascii c) - 48 in
      if (0 <=? n) && (n <=? 9) then digits_value (10 * acc + n) s' else None
  end.

Definition int_of_digits (s : string) : result Z :=
  match s with
  | EmptyString => Err (ValueError "invalid literal for int() with base 10: ''")
  | _ => match digits_value 0 s with
         | Some z => Ok z
         | None => Err (ValueError ("invalid literal for int() with base 10: '"
                                    ++ s ++ "'"))
         end
  end.

(** ** Specification-side vocabulary *)

(** Running [f] on every element in order, threading the trace and stopping
    at the first exception: what the accumulating loops of [predict_year]
    and [get_multi_year_predictions] amount to. *)
Fixpoint map_m {A B} (f : A -> M B) (xs : list A) : M (list B) :=
  match xs with
  | [] => ret []
  | x :: xs' => b <- f x ;; bs <- map_m f xs' ;; ret (b :: bs)
  end.

(** [before a b l]: an occurrence of [a] precedes an occurrence of [b]. *)
Definition before {A} (a b : A) (l : list A) : Prop :=
  exists l1 l2 l3, l = (l1 ++ a :: l2 ++ b :: l3)%list.

(** Position of a string in a list (the length when absent). *)
Fixpoint index_of (x : string) (l : list string) : nat :=
  match l with
  | [] => O
  | y :: l' => if String.eqb y x then O else S (index_of x l')
  end.

(** The calendar number, 1 to 12, of an English month name. *)
Definition month_number (name : string) : Z :=
  Z.of_nat (index_of name Date.month_names) + 1.

(** The unrounded means of lines 86-87, as functions of the year forecast. *)
Definition avg_buy_of (predictions : list prediction) : PrimFloat.float :=
  (sum (map price_double
          (slice_to 3 (sorted predicted_price predictions))) / 3)%float.

Definition avg_sell_of (predictions : list prediction) : PrimFloat.float :=
  (sum (map price_double
          (slice_last 3 (sorted predicted_price predictions))) / 3)%float.

(** The margin of lines 88 and 109 as a function of the two means. *)
Definition margin_of (avg_buy avg_sell : PrimFloat.float) : PrimFloat.float :=
  float_round2 ((avg_sell - avg_buy) / avg_buy * 100)%float.

(** A result to fall back on where a match needs one. *)
Definition no_result : best_months_t :=
  mk_best_months 0 [] [] (mk_profit_analysis 0 0 0 0 0).

(** A two-digit rendering of a number below 100. *)
Definition digit (n : Z) : ascii := ascii_of_nat (48 + Z.to_nat n).

Definition two_digits (n : Z) : string :=
  String (digit (n / 10)) (String (digit (n mod 10)) EmptyString).

(** The three-letter abbreviations of the twelve months. *)
Definition month_abbr : list string :=
  ["Jan"; "Feb"; "Mar"; "Apr"; "May"; "Jun";
   "Jul"; "Aug"; "Sep"; "Oct"; "Nov"; "Dec"].

(** The historical entry of lines 47-52. *)
Definition historical (year_ : Z) (d : Date.t) : prediction :=
  {| month := Date.strftime_B d;
     year := year_;
     predicted_price := 0;
     lower_bound := None;
     upper_bound := None;
     note := Some "Historical data" |}.

(** The year a request asks for: the parsed [year] parameter, the current
    year when the parameter is absent. *)
Definition requested_year (int_of_str : string -> result Z) (now_year : Z)
    (request : HttpRequest) : result Z :=
  match QueryDict_get (GET request) "year" with
  | Some s => int_of_str s
  | None => Ok now_year
  end.

(** ** Construction of the predictor: [__init__] and [load_model]

    The file system and [joblib] are parameters.  The two [print] calls
    write to standard output, which is not part of the trace. *)

Definition model_t : Type := Z -> result (list forecast_row).

(** The attributes of a predictor object. *)
Record predictor_obj : Type := mk_obj {
  obj_model_path : string;
  obj_model : option model_t
}.

Section Loader.

(** [os.path.exists] and [joblib.load]. *)
Variable os_path_exists : string -> bool.
Variable joblib_load : string -> result model_t.

Definition model_path : string :=
  "F:\Program Files\projects\book2\myproject\myapp\chick_mash_price_prophet_model.pkl".

Definition load_model (self : predictor_obj) : M predictor_obj :=
  try_reraise "Failed to load model: " (
    if os_path_exists (obj_model_path self) then
      loaded <- lift (joblib_load (obj_model_path self)) ;;
      ret {| obj_model_path := obj_model_path self;
             obj_model := Some loaded |}
    else
      raise (Exception ("Model file not found: " ++ obj_model_path self))).

Definition __init__ : M predictor_obj :=
  load_model {| obj_model_path := model_path; obj_model := None |}.

End Loader.

(** ** More specification-side vocabulary *)

(** The entry of lines 64-70, built from the forecast row that was picked. *)
Definition forecast_entry (year_ : Z) (d : Date.t) (row : forecast_row)
  : prediction :=
  {| month := Date.strftime_B d;
     year := year_;
     predicted_price := round2 (yhat row);
     lower_bound := Some (round2 (yhat_lower row));
     upper_bound := Some (round2 (yhat_upper row));
     note := None |}.

(** The horizon of month [m] of year [y]. *)
Definition horizon (y m : Z) : Z := (y - 2024) * 12 + (m - 12).

(** A computation that only appends events to the trace and whose outcome
    does not depend on the events already there. *)
Definition appends {A} (m : M A) : Prop :=
  exists r evs, forall t, m t = (r, (t ++ evs)%list).

(** What a computation returns and what it appends, started on the empty
    trace. *)
Definition outcome {A} (m : M A) : result A := fst (m []).
Definition emitted {A} (m : M A) : trace := snd (m []).

(** The envelope every view produces: status 200 with data and a message,
    or status 400 or 500 with an error. *)
Definition envelope_ok (r : JsonResponse) : Prop :=
  (status r = 200 /\ success r = true /\ data r <> None
   /\ error r = None /\ message r <> None)
  \/ ((status r = 400 \/ status r = 500) /\ success r = false
      /\ data r = None /\ error r <> None /\ message r = None).

(** Whether a string contains a slash. *)
Fixpoint has_slash (s : string) : bool :=
  match s with
  | EmptyString => false
  | String c s' => Ascii.eqb c "/" || has_slash s'
  end.

(** A model whose forecast table is always empty. *)
Definition empty_model (periods : Z) : result (list forecast_row) := Ok [].

(** A file system holding the model file, and one without it. *)
Definition disk_with_model (path : string) : bool := String.eqb path model_path.
Definition disk_without_model (path : string) : bool := false.

Definition load_ramp (path : string) : result model_t := Ok ramp_model.
Definition load_corrupt (path : string) : result model_t :=
  Err (PyExc "UnpicklingError" "invalid load key").

Local Open Scope list_scope.

(** A list known to have twelve elements, spelled out. *)
Ltac twelve s H :=
  do 12 (destruct s as [| ? s]; [discriminate H |]);
  destruct s; [| discriminate H].


(** ** The monad *)

Lemma bind_ok {A B} (m : M A) (k : A -> M B) t b t' :
  bind m k t = (Ok b, t') ->
  exists a t1, m t = (Ok a, t1) /\ k a t1 = (Ok b, t').
Proof.
  unfold bind. destruct (m t) as [[a | e] t1]; intros H.
  - exists a, t1. split; [reflexivity | exact H].
  - discriminate H.
Qed.

Lemma bind_eq_ok {A B} (m : M A) (k : A -> M B) t a t1 :
  m t = (Ok a, t1) -> bind m k t = k a t1.
Proof. unfold bind. intros ->. reflexivity. Qed.

Lemma bind_eq_err {A B} (m : M A) (k : A -> M B) t e t1 :
  m t = (Err e, t1) -> bind m k t = (Err e, t1).
Proof. unfold bind. intros ->. reflexivity. Qed.

Lemma try_reraise_ok {A} prefix (m : M A) t a t' :
  try_reraise prefix m t = (Ok a, t') -> m t = (Ok a, t').
Proof.
  unfold try_reraise. destruct (m t) as [[a0 | e] t1]; intros H.
  - exact H.
  - discriminate H.
Qed.

Lemma try_reraise_eq_ok {A} prefix (m : M A) t a t' :
  m t = (Ok a, t') -> try_reraise prefix m t = (Ok a, t').
Proof. unfold try_reraise. intros ->. reflexivity. Qed.

Lemma try_reraise_eq_err {A} prefix (m : M A) t e t' :
  m t = (Err e, t') ->
  try_reraise prefix m t = (Err (Exception (prefix ++ exn_str e)%string), t').
Proof. unfold try_reraise. intros ->. reflexivity. Qed.

Lemma lift_ok {A} (r : result A) t a t' :
  lift r t = (Ok a, t') -> r = Ok a /\ t' = t.
Proof. unfold lift. intros H. inversion H. split; reflexivity. Qed.

(** An accumulating loop is [map_m] followed by a fold of the updates. *)
Lemma for_each_map_m {A B C} (f : A -> M B) (upd : C -> A -> B -> C) :
  forall xs acc t,
    for_each xs (fun acc x => b <- f x ;; ret (upd acc x b)) acc t
    = (bs <- map_m f xs ;;
       ret (fold_left (fun a xb => upd a (fst xb) (snd xb))
                      (combine xs bs) acc)) t.
Proof.
  induction xs as [| x xs IH]; intros acc t.
  - reflexivity.
  - cbn [for_each map_m]. unfold bind in *.
    destruct (f x t) as [[b | e] t1]; [| reflexivity].
    unfold ret at 1. rewrite IH.
    destruct (map_m f xs t1) as [[bs | e] t2]; reflexivity.
Qed.

Lemma map_m_length {A B} (f : A -> M B) :
  forall xs t bs t', map_m f xs t = (Ok bs, t') -> List.length bs = List.length xs.
Proof.
  induction xs as [| x xs IH]; intros t bs t' H.
  - inversion H. reflexivity.
  - cbn [map_m] in H. apply bind_ok in H. destruct H as (b & t1 & _ & H).
    apply bind_ok in H. destruct H as (bs' & t2 & H & R).
    inversion R. subst. cbn. f_equal. eapply IH. exact H.
Qed.

Lemma map_m_Forall2 {A B} (f : A -> M B) :
  forall xs t bs t', map_m f xs t = (Ok bs, t') ->
    Forall2 (fun x b => exists t1 t2, f x t1 = (Ok b, t2)) xs bs.
Proof.
  induction xs as [| x xs IH]; intros t bs t' H.
  - inversion H. constructor.
  - cbn [map_m] in H. apply bind_ok in H. destruct H as (b & t1 & Hb & H).
    apply bind_ok in H. destruct H as (bs' & t2 & H & R).
    inversion R. subst. constructor.
    + exists t, t1. exact Hb.
    + eapply IH. exact H.
Qed.

(** [map_m] stops at the first element that fails. *)
Lemma map_m_fail_fast {A B} (f : A -> M B) :
  forall xs1 x xs2 t bs t1 e t2,
    map_m f xs1 t = (Ok bs, t1) -> f x t1 = (Err e, t2) ->
    map_m f (xs1 ++ x :: xs2) t = (Err e, t2).
Proof.
  induction xs1 as [| y xs1 IH]; intros x xs2 t bs t1 e t2 H1 H2.
  - inversion H1. subst. cbn [app map_m]. unfold bind. rewrite H2. reflexivity.
  - cbn [map_m] in H1. apply bind_ok in H1. destruct H1 as (b & t3 & Hb & H1).
    apply bind_ok in H1. destruct H1 as (bs' & t4 & H1 & R).
    inversion R. subst. cbn [app map_m].
    rewrite (bind_eq_ok _ _ _ _ _ Hb).
    erewrite bind_eq_err; [reflexivity |]. eapply IH; eassumption.
Qed.

(** ** Dates and the horizon *)

Lemma datetime_ok y m d :
  Date.datetime y m 1 = Ok d ->
  d = Date.mk y m 1 /\ 1 <= y <= 9999 /\ 1 <= m <= 12.
Proof.
  unfold Date.datetime, Date.MINYEAR, Date.MAXYEAR.
  destruct (Date.int_arg_error y); [discriminate |].
  destruct (Date.int_arg_error m); [discriminate |].
  destruct (Date.int_arg_error 1); [discriminate |].
  destruct ((1 <=? y) && (y <=? 9999)) eqn:Hy; cbn [negb]; [| discriminate].
  destruct ((1 <=? m) && (m <=? 12)) eqn:Hm; cbn [negb]; [| discriminate].
  destruct (negb ((1 <=? 1) && (1 <=? Date.days_in_month y m)));
    [discriminate |].
  intros H. inversion H.
  apply andb_true_iff in Hy, Hm. destruct Hy, Hm. repeat split; lia.
Qed.

Lemma int_arg_fits z :
  - 2 ^ 31 <= z <= 2 ^ 31 - 1 -> Date.int_arg_error z = None.
Proof.
  intros H. unfold Date.int_arg_error.
  replace (z <? - 2 ^ 63) with false by (symmetry; apply Z.ltb_ge; lia).
  replace (2 ^ 63 - 1 <? z) with false by (symmetry; apply Z.ltb_ge; lia).
  replace (2 ^ 31 - 1 <? z) with false by (symmetry; apply Z.ltb_ge; lia).
  replace (z <? - 2 ^ 31) with false by (symmetry; apply Z.ltb_ge; lia).
  reflexivity.
Qed.

Lemma days_in_month_ge y m : 28 <= Date.days_in_month y m.
Proof.
  unfold Date.days_in_month.
  destruct (m =? 2); [destruct (Date.is_leap y); lia |].
  destruct ((m =? 4) || (m =? 6) || (m =? 9) || (m =? 11)); lia.
Qed.

Lemma datetime_valid y m :
  1 <= y <= 9999 -> 1 <= m <= 12 ->
  Date.datetime y m 1 = Ok (Date.mk y m 1).
Proof.
  intros Hy Hm. unfold Date.datetime, Date.MINYEAR, Date.MAXYEAR.
  pose proof (days_in_month_ge y m) as Hd.
  rewrite (int_arg_fits y), (int_arg_fits m), (int_arg_fits 1) by lia.
  replace (1 <=? y) with true by (symmetry; apply Z.leb_le; lia).
  replace (y <=? 9999) with true by (symmetry; apply Z.leb_le; lia).
  replace (1 <=? m) with true by (symmetry; apply Z.leb_le; lia).
  replace (m <=? 12) with true by (symmetry; apply Z.leb_le; lia).
  replace (1 <=? Date.days_in_month y m) with true
    by (symmetry; apply Z.leb_le; lia).
  reflexivity.
Qed.

Lemma months_ahead_of_mk y m d :
  months_ahead_of (Date.mk y m d) = (y - 2024) * 12 + (m - 12).
Proof. reflexivity. Qed.

(** ** [_predict_month] *)

Section PredictMonth.
Variable model : Z -> result (list forecast_row).

(** At or before the cut-off the entry is the historical one and the
    trace is left as it was: the model is not consulted. *)
Lemma predict_month_historical y m d t :
  Date.datetime y m 1 = Ok d ->
  months_ahead_of d <= 0 ->
  _predict_month model y m t = (Ok (historical y d), t).
Proof.
  intros Hd Hh. unfold _predict_month.
  apply try_reraise_eq_ok.
  rewrite (bind_eq_ok _ _ t d t) by (unfold lift; rewrite Hd; reflexivity).
  apply Z.leb_le in Hh. rewrite Hh. reflexivity.
Qed.

(** Past the cut-off the first thing done is one request to the model,
    for exactly the horizon. *)
Lemma predict_month_future_trace y m d t :
  Date.datetime y m 1 = Ok d ->
  0 < months_ahead_of d ->
  snd (_predict_month model y m t) = t ++ [ModelForecast (months_ahead_of d)].
Proof.
  intros Hd Hh. unfold _predict_month, try_reraise.
  rewrite (bind_eq_ok _ _ t d t) by (unfold lift; rewrite Hd; reflexivity).
  apply Z.leb_gt in Hh. rewrite Hh.
  unfold model_forecast, bind, emit, lift.
  destruct (model (months_ahead_of d)) as [fc | e]; [| reflexivity].
  destruct (List.length _ =? 0)%nat; [reflexivity |].
  destruct (index_first _); reflexivity.
Qed.

(** Whatever path was taken, a returned entry carries the name of the
    requested month and the requested year, and the date was valid. *)
Lemma predict_month_ok y m t p t' :
  _predict_month model y m t = (Ok p, t') ->
  month p = nth (Z.to_nat (m - 1)) Date.month_names ""%string
  /\ year p = y /\ 1 <= y <= 9999 /\ 1 <= m <= 12.
Proof.
  intros H. unfold _predict_month in H. apply try_reraise_ok in H.
  apply bind_ok in H. destruct H as (d & t1 & Hd & H).
  apply lift_ok in Hd. destruct Hd as [Hd ->].
  apply datetime_ok in Hd. destruct Hd as (-> & Hy & Hm).
  destruct (months_ahead_of (Date.mk y m 1) <=? 0).
  - inversion H. subst. cbn. auto.
  - apply bind_ok in H. destruct H as (fc & t2 & _ & H).
    destruct (List.length _ =? 0)%nat; [discriminate H |].
    apply bind_ok in H. destruct H as (row & t3 & _ & H).
    inversion H. subst. cbn. auto.
Qed.
End PredictMonth.

(** ** [predict_year] *)

Section PredictYear.
Variable model : Z -> result (list forecast_row).

(** The loop of [predict_year] runs [_predict_month] on 1..12 in order. *)
Lemma predict_year_map_m y t :
  predict_year model y t
  = try_reraise "Year prediction failed: "
      (map_m (_predict_month model y) (range 1 13)) t.
Proof.
  unfold predict_year, try_reraise.
  rewrite (for_each_map_m (_predict_month model y)
             (fun acc _ b => acc ++ [b])).
  unfold bind.
  destruct (map_m (_predict_month model y) (range 1 13) t)
    as [[bs | e] t1] eqn:E; [| reflexivity].
  unfold ret. do 2 f_equal.
  assert (G : forall (xs : list Z) (l acc : list prediction),
             List.length l = List.length xs ->
             fold_left (fun a (xb : Z * prediction) => a ++ [snd xb])
               (combine xs l) acc = acc ++ l).
  { induction xs as [| x xs IH]; intros [| b l] acc Hl; try discriminate Hl.
    - cbn. now rewrite app_nil_r.
    - cbn. rewrite IH by (cbn in Hl; lia). now rewrite <- app_assoc. }
  apply G. eapply map_m_length. eassumption.
Qed.

Lemma predict_year_ok y t ps t' :
  predict_year model y t = (Ok ps, t') ->
  map_m (_predict_month model y) (range 1 13) t = (Ok ps, t').
Proof.
  rewrite predict_year_map_m. apply try_reraise_ok.
Qed.

Lemma Forall2_map_eq {A B C} (f : A -> C) (g : B -> C) :
  forall xs ys, Forall2 (fun x y => g y = f x) xs ys -> map g ys = map f xs.
Proof.
  induction 1 as [| x y xs ys H _ IH]; cbn; [reflexivity |].
  now rewrite H, IH.
Qed.

Lemma predict_year_months y t ps t' :
  predict_year model y t = (Ok ps, t') ->
  map month ps = Date.month_names.
Proof.
  intros H. apply predict_year_ok in H. apply map_m_Forall2 in H.
  change Date.month_names
    with (map (fun m => nth (Z.to_nat (m - 1)) Date.month_names ""%string)
              (range 1 13)).
  apply Forall2_map_eq.
  eapply Forall2_impl; [| exact H].
  intros m p (t1 & t2 & Hp). cbn beta.
  apply predict_month_ok in Hp. tauto.
Qed.

Lemma predict_year_length y t ps t' :
  predict_year model y t = (Ok ps, t') -> List.length ps = 12%nat.
Proof.
  intros H. apply predict_year_months in H.
  rewrite <- (length_map month), H. reflexivity.
Qed.

Lemma predict_year_years y t ps t' :
  predict_year model y t = (Ok ps, t') -> Forall (fun p => year p = y) ps.
Proof.
  intros H. apply predict_year_ok in H. apply map_m_Forall2 in H.
  induction H as [| m p ms ps' (t1 & t2 & Hp) _ IH]; constructor.
  - apply predict_month_ok in Hp. tauto.
  - exact IH.
Qed.

(** A year that was forecast is a valid calendar year. *)
Lemma predict_year_valid y t ps t' :
  predict_year model y t = (Ok ps, t') -> 1 <= y <= 9999.
Proof.
  intros H. apply predict_year_ok in H. apply map_m_Forall2 in H.
  inversion H as [| m p ms ps' (t1 & t2 & Hp) _]. subst.
  apply predict_month_ok in Hp. tauto.
Qed.
End PredictYear.

(** ** Order of occurrence in a list *)

Section Before.
Context {A : Type}.
Implicit Types (a b x y : A) (l : list A).

Lemma before_nil a b : ~ before a b [].
Proof. intros (l1 & l2 & l3 & H). destruct l1; discriminate H. Qed.

Lemma before_cons_inv a b y l :
  before a b (y :: l) -> (a = y /\ In b l) \/ before a b l.
Proof.
  intros (l1 & l2 & l3 & H). destruct l1 as [| z l1]; cbn in H.
  - inversion H. subst. left. split; [reflexivity |].
    apply in_or_app. right. now left.
  - inversion H. subst. right. now exists l1, l2, l3.
Qed.

Lemma before_cons a b y l : before a b l -> before a b (y :: l).
Proof. intros (l1 & l2 & l3 & ->). now exists (y :: l1), l2, l3. Qed.

Lemma before_head a b l : In b l -> before a b (a :: l).
Proof.
  intros H. apply in_split in H. destruct H as (l2 & l3 & ->).
  now exists [], l2, l3.
Qed.

Lemma before_snoc a x l : In a l -> before a x (l ++ [x]).
Proof.
  intros H. apply in_split in H. destruct H as (l1 & l2 & ->).
  exists l1, l2, []. now rewrite <- app_assoc.
Qed.

Lemma before_app_l a b l l' : before a b l -> before a b (l ++ l').
Proof.
  intros (l1 & l2 & l3 & ->). exists l1, l2, (l3 ++ l').
  rewrite <- app_assoc. cbn. rewrite <- app_assoc. reflexivity.
Qed.

Lemma before_app_r a b l l' : before a b l -> before a b (l' ++ l).
Proof.
  intros (l1 & l2 & l3 & ->). exists (l' ++ l1), l2, l3.
  now rewrite <- app_assoc.
Qed.

Lemma before_firstn a b n l : before a b (firstn n l) -> before a b l.
Proof.
  intros H. rewrite <- (firstn_skipn n l). now apply before_app_l.
Qed.

Lemma before_skipn a b n l : before a b (skipn n l) -> before a b l.
Proof.
  intros H. rewrite <- (firstn_skipn n l). now apply before_app_r.
Qed.

Lemma before_map {B} (f : A -> B) a b l :
  before a b l -> before (f a) (f b) (map f l).
Proof.
  intros (l1 & l2 & l3 & ->). exists (map f l1), (map f l2), (map f l3).
  rewrite map_app. cbn. rewrite map_app. reflexivity.
Qed.

Lemma before_map_inv {B} (f : A -> B) (u v : B) l :
  before u v (map f l) ->
  exists a b, u = f a /\ v = f b /\ before a b l.
Proof.
  intros (m1 & m2 & m3 & H).
  apply map_eq_app in H. destruct H as (l1 & r1 & -> & <- & H).
  apply map_eq_cons in H. destruct H as (a & r2 & -> & <- & H).
  apply map_eq_app in H. destruct H as (l2 & r3 & -> & <- & H).
  apply map_eq_cons in H. destruct H as (b & l3 & -> & <- & <-).
  exists a, b. repeat split. now exists l1, l2, l3.
Qed.
End Before.

Lemma in_skipn_in {A} (x : A) : forall n l, In x (skipn n l) -> In x l.
Proof.
  induction n as [| n IH]; intros [| y l] H; cbn in H; auto.
  right. now apply IH.
Qed.

Lemma in_firstn_in {A} (x : A) : forall n l, In x (firstn n l) -> In x l.
Proof.
  induction n as [| n IH]; intros [| y l] H; cbn in H; try contradiction.
  destruct H as [-> | H]; [now left | right; now apply IH].
Qed.

(** In a list without repetition, order of occurrence is order of index. *)
Lemma before_index_of (x y : string) (l : list string) :
  NoDup l -> before x y l -> (index_of x l < index_of y l)%nat.
Proof.
  intros Hnd (l1 & l2 & l3 & ->).
  induction l1 as [| z l1 IH]; cbn [app index_of] in *.
  - rewrite String.eqb_refl.
    inversion Hnd as [| ? ? Hx _]. subst.
    destruct (String.eqb x y) eqn:E; [| lia].
    apply String.eqb_eq in E. subst. exfalso. apply Hx.
    apply in_or_app. right. now left.
  - inversion Hnd as [| ? ? Hz Hnd']. subst.
    destruct (String.eqb z x) eqn:Ex.
    { apply String.eqb_eq in Ex. subst. exfalso. apply Hz.
      apply in_or_app. right. now left. }
    destruct (String.eqb z y) eqn:Ey.
    { apply String.eqb_eq in Ey. subst. exfalso. apply Hz.
      apply in_or_app. right. right. apply in_or_app. right. now left. }
    specialize (IH Hnd'). lia.
Qed.

(** ** [sorted] is a stable ascending sort *)

Lemma Qltb_true a b : Qltb a b = true <-> (a < b)%Q.
Proof.
  unfold Qltb. rewrite negb_true_iff. split; intros H.
  - apply Qnot_le_lt. intros C. apply Qle_bool_iff in C. congruence.
  - destruct (Qle_bool b a) eqn:E; [| reflexivity].
    apply Qle_bool_iff in E. exfalso. exact (Qlt_not_le _ _ H E).
Qed.

Lemma Qltb_false a b : Qltb a b = false <-> (b <= a)%Q.
Proof.
  unfold Qltb. rewrite negb_false_iff. apply Qle_bool_iff.
Qed.

Section SortedFacts.
Context {A : Type}.
Variable key : A -> Q.

Lemma sorted_snoc l x :
  sorted key (l ++ [x]) = insert_by key x (sorted key l).
Proof. unfold sorted. rewrite fold_left_app. reflexivity. Qed.

Lemma insert_by_perm x l : Permutation (insert_by key x l) (x :: l).
Proof.
  induction l as [| y l IH]; cbn.
  - reflexivity.
  - destruct (Qltb (key x) (key y)); [reflexivity |].
    rewrite IH. apply perm_swap.
Qed.

Lemma sorted_perm l : Permutation (sorted key l) l.
Proof.
  induction l as [| x l IH] using rev_ind.
  - reflexivity.
  - rewrite sorted_snoc, insert_by_perm, IH.
    apply Permutation_cons_append.
Qed.

Lemma sorted_length l : List.length (sorted key l) = List.length l.
Proof. apply Permutation_length, sorted_perm. Qed.

Lemma insert_by_in a x l : In a (insert_by key x l) -> a = x \/ In a l.
Proof.
  intros H. apply (Permutation_in _ (insert_by_perm x l)) in H.
  destruct H as [-> | H]; auto.
Qed.

Lemma insert_by_ascending x l :
  StronglySorted (key_le key) l -> StronglySorted (key_le key) (insert_by key x l).
Proof.
  induction 1 as [| y l Hs IH Hy]; cbn.
  - repeat constructor.
  - destruct (Qltb (key x) (key y)) eqn:E.
    + apply Qltb_true in E. constructor; [now constructor |].
      constructor; [now apply Qlt_le_weak |].
      eapply Forall_impl; [| exact Hy].
      intros z Hz. unfold key_le in *.
      apply Qlt_le_weak. eapply Qlt_le_trans; eassumption.
    + apply Qltb_false in E. constructor; [exact IH |].
      apply Forall_forall. intros z Hz.
      apply insert_by_in in Hz. destruct Hz as [-> | Hz]; [exact E |].
      rewrite Forall_forall in Hy. now apply Hy.
Qed.

Lemma sorted_ascending l : StronglySorted (key_le key) (sorted key l).
Proof.
  induction l as [| x l IH] using rev_ind.
  - constructor.
  - rewrite sorted_snoc. now apply insert_by_ascending.
Qed.

(** Where a freshly inserted element ends up relative to the others. *)
Lemma insert_by_before a b x l :
  StronglySorted (key_le key) l ->
  before a b (insert_by key x l) ->
  before a b l \/ (In a l /\ b = x) \/ (a = x /\ (key x < key b)%Q).
Proof.
  induction 1 as [| y l Hs IH Hy]; cbn; intros H.
  - apply before_cons_inv in H. destruct H as [[_ []] | H].
    now apply before_nil in H.
  - destruct (Qltb (key x) (key y)) eqn:E.
    + apply Qltb_true in E.
      apply before_cons_inv in H. destruct H as [[-> Hb] | H]; [| now left].
      right. right. split; [reflexivity |].
      destruct Hb as [<- | Hb]; [exact E |].
      rewrite Forall_forall in Hy. specialize (Hy _ Hb).
      eapply Qlt_le_trans; eassumption.
    + apply before_cons_inv in H. destruct H as [[-> Hb] | H].
      * apply insert_by_in in Hb. destruct Hb as [-> | Hb].
        -- right. left. split; [now left | reflexivity].
        -- left. now apply before_head.
      * destruct (IH H) as [H1 | [[H1 H2] | [H1 H2]]].
        -- left. now apply before_cons.
        -- right. left. split; [now right | exact H2].
        -- right. right. now split.
Qed.

(** Stability: two elements with equal keys leave in the order in which
    they came. *)
Lemma sorted_stable a b l :
  before a b (sorted key l) -> (key a == key b)%Q -> before a b l.
Proof.
  revert a b. induction l as [| x l IH] using rev_ind; intros a b H E.
  - now apply before_nil in H.
  - rewrite sorted_snoc in H.
    apply insert_by_before in H; [| apply sorted_ascending].
    destruct H as [H | [[H ->] | [-> H]]].
    + apply before_app_l. now apply IH.
    + apply before_snoc.
      exact (Permutation_in _ (sorted_perm l) H).
    + rewrite E in H. now apply Qlt_irrefl in H.
Qed.

(** In an ascending list whatever comes first has the smaller key. *)
Lemma ascending_app l1 l2 :
  StronglySorted (key_le key) (l1 ++ l2) ->
  forall a b, In a l1 -> In b l2 -> (key a <= key b)%Q.
Proof.
  induction l1 as [| x l1 IH]; cbn; intros H a b Ha Hb; [contradiction |].
  inversion H as [| ? ? Hs Hx]. subst.
  destruct Ha as [<- | Ha].
  - rewrite Forall_forall in Hx. apply Hx. apply in_or_app. now right.
  - now apply IH.
Qed.

Lemma ascending_app_r l1 l2 :
  StronglySorted (key_le key) (l1 ++ l2) -> StronglySorted (key_le key) l2.
Proof.
  induction l1 as [| x l1 IH]; cbn; intros H; [exact H |].
  inversion H. now apply IH.
Qed.
End SortedFacts.

(** ** [get_best_months] *)

(** What lines 79-113 compute on a forecast of twelve months. *)
Lemma rank_year_spec y ps t d :
  List.length ps = 12%nat ->
  let s := sorted predicted_price ps in
  rank_year y ps t =
  if PrimFloat.is_zero (avg_buy_of ps) then
    (Err (ZeroDivisionError "float division by zero"), t)
  else
    (Ok {| bm_year := y;
           best_buy_months := map buy_entry (firstn 3 s);
           best_sell_months := map sell_entry (skipn 9 s);
           profit_analysis :=
             {| average_buy_price := float_round2 (avg_buy_of ps);
                average_sell_price := float_round2 (avg_sell_of ps);
                potential_profit_margin :=
                  margin_of (avg_buy_of ps) (avg_sell_of ps);
                annual_low := predicted_price (hd d s);
                annual_high := predicted_price (last s d) |} |}, t).
Proof.
  intros Hl s. unfold rank_year, avg_buy_of, avg_sell_of, margin_of.
  fold s. assert (Hs : List.length s = 12%nat)
    by (unfold s; now rewrite sorted_length).
  clearbody s. twelve s Hs.
  unfold slice_to, slice_last.
  cbn [List.length Nat.sub firstn skipn map hd last].
  unfold bind, lift, ret, truediv.
  change (PrimFloat.is_zero 3) with false. cbv iota beta.
  destruct (PrimFloat.is_zero _); reflexivity.
Qed.

Lemma get_best_months_unfold model y t :
  get_best_months model y t =
  match predict_year model y t with
  | (Ok ps, t1) => try_reraise "Best months analysis failed: " (rank_year y ps) t1
  | (Err e, t1) =>
      (Err (Exception ("Best months analysis failed: " ++ exn_str e)%string), t1)
  end.
Proof.
  unfold get_best_months, try_reraise, bind.
  destruct (predict_year model y t) as [[ps | e] t1]; reflexivity.
Qed.

(** A successful [get_best_months] in terms of the year forecast it ranked. *)
Lemma get_best_months_ok model y t r t' d :
  get_best_months model y t = (Ok r, t') ->
  exists ps,
    predict_year model y t = (Ok ps, t')
    /\ let s := sorted predicted_price ps in
       best_buy_months r = map buy_entry (firstn 3 s)
       /\ best_sell_months r = map sell_entry (skipn 9 s)
       /\ annual_low (profit_analysis r) = predicted_price (hd d s)
       /\ annual_high (profit_analysis r) = predicted_price (last s d)
       /\ potential_profit_margin (profit_analysis r)
          = margin_of (avg_buy_of ps) (avg_sell_of ps)
       /\ average_buy_price (profit_analysis r)
          = float_round2 (avg_buy_of ps)
       /\ average_sell_price (profit_analysis r)
          = float_round2 (avg_sell_of ps)
       /\ PrimFloat.is_zero (avg_buy_of ps) = false.
Proof.
  rewrite get_best_months_unfold.
  destruct (predict_year model y t) as [[ps | e] t1] eqn:E; [| discriminate].
  intros H. apply try_reraise_ok in H.
  rewrite (rank_year_spec y ps t1 d) in H
    by (eapply predict_year_length; eassumption).
  destruct (PrimFloat.is_zero (avg_buy_of ps)) eqn:Hz; [discriminate H |].
  inversion H. subst. exists ps. cbn [best_buy_months best_sell_months
    profit_analysis annual_low annual_high potential_profit_margin
    average_buy_price average_sell_price].
  repeat split; reflexivity || exact Hz.
Qed.

(** ** The claims *)

(** C1 (amended).  For a year forecast [ps] of twelve months, with
    [avg_buy_of ps] and [avg_sell_of ps] the means of the three lowest and
    of the three highest prices as the code computes them, in double
    arithmetic: when the average buy price is not zero, [get_best_months]
    returns and its potential profit margin is
    [round((avg_sell - avg_buy) / avg_buy * 100, 2)], every operation
    being the double one; when it is zero, of either sign, no margin is
    reported at all: the division raises [ZeroDivisionError] and the
    method's handler re-raises it as "Best months analysis failed". *)
Theorem profit_margin_or_failure model y t ps t1 :
  predict_year model y t = (Ok ps, t1) ->
  List.length ps = 12%nat
  /\ (PrimFloat.is_zero (avg_buy_of ps) = false ->
      exists r,
        get_best_months model y t = (Ok r, t1)
        /\ potential_profit_margin (profit_analysis r)
           = float_round2
               ((avg_sell_of ps - avg_buy_of ps) / avg_buy_of ps * 100)%float)
  /\ (PrimFloat.is_zero (avg_buy_of ps) = true ->
      get_best_months model y t
      = (Err (Exception
                "Best months analysis failed: float division by zero"), t1)).
Proof.
  intros H. pose proof (predict_year_length _ _ _ _ _ H) as Hl.
  split; [exact Hl |].
  rewrite get_best_months_unfold, H. unfold try_reraise.
  rewrite (rank_year_spec y ps t1 (historical 0 last_training_date) Hl).
  split; intros Hz; rewrite Hz.
  - eexists. split; reflexivity.
  - reflexivity.
Qed.

(** With 10 in January and 11 in the other months the means are
    10.666666666666666 and 11, the unrounded margin 3.1250000000000053,
    and the margin reported 3.13. *)
Lemma profit_margin_or_failure_witness :
  exists r,
    get_best_months tie_model 2025 [] = (Ok r, snd (predict_year tie_model 2025 []))
    /\ potential_profit_margin (profit_analysis r) = 3.13%float.
Proof.
  destruct (profit_margin_or_failure tie_model 2025 []
              (match fst (predict_year tie_model 2025 []) with
               | Ok ps => ps | Err _ => [] end)
              (snd (predict_year tie_model 2025 [])))
    as (_ & Hnz & _).
  - vm_compute. reflexivity.
  - destruct Hnz as (r & Hr & Hm).
    + vm_compute. reflexivity.
    + exists r. split; [exact Hr |]. rewrite Hm. vm_compute. reflexivity.
Defined.

(** C1, as stated, fails: the twelve months of 2024 are all historical and
    priced 0, the average buy price is 0, and [get_best_months] raises
    instead of reporting a sentinel margin. *)
Lemma zero_average_buy_price_raises :
  exists ps,
    predict_year ramp_model 2024 [] = (Ok ps, [])
    /\ List.length ps = 12%nat
    /\ avg_buy_of ps = 0%float
    /\ get_best_months ramp_model 2024 []
       = (Err (Exception
                 "Best months analysis failed: float division by zero"), [])
    /\ ~ (exists r t', get_best_months ramp_model 2024 [] = (Ok r, t')).
Proof.
  eexists. split; [vm_compute; reflexivity |].
  split; [reflexivity |]. split; [vm_compute; reflexivity |].
  split; [vm_compute; reflexivity |].
  intros (r & t' & H). vm_compute in H. discriminate H.
Qed.

(** C2.  The horizon computed for a target year and month is
    [(year - 2024) * 12 + (month - 12)], the cut-off being 2024-12-01, and
    this is the number of periods requested from the model; 2025-03 gives 3
    and the forecast path, 2024-06 gives -6 and the historical path. *)
Theorem horizon_from_cutoff :
  last_training_date = Date.mk 2024 12 1
  /\ (forall y m d,
        Date.datetime y m 1 = Ok d ->
        months_ahead_of d = (y - 2024) * 12 + (m - 12))
  /\ (forall model y m d t,
        Date.datetime y m 1 = Ok d -> 0 < months_ahead_of d ->
        snd (_predict_month model y m t)
        = t ++ [ModelForecast ((y - 2024) * 12 + (m - 12))])
  /\ (Date.datetime 2025 3 1 = Ok (Date.mk 2025 3 1)
      /\ months_ahead_of (Date.mk 2025 3 1) = 3
      /\ forall model t,
           snd (_predict_month model 2025 3 t) = t ++ [ModelForecast 3])
  /\ (Date.datetime 2024 6 1 = Ok (Date.mk 2024 6 1)
      /\ months_ahead_of (Date.mk 2024 6 1) = -6
      /\ forall model t,
           _predict_month model 2024 6 t
           = (Ok (historical 2024 (Date.mk 2024 6 1)), t)).
Proof.
  split; [reflexivity |]. split; [| split; [| split]].
  - intros y m d H. apply datetime_ok in H. destruct H as (-> & _).
    apply months_ahead_of_mk.
  - intros model y m d t H Hp.
    rewrite (predict_month_future_trace model y m d t H Hp).
    apply datetime_ok in H. destruct H as (-> & _).
    now rewrite months_ahead_of_mk.
  - split; [reflexivity |]. split; [reflexivity |]. intros model t.
    now rewrite (predict_month_future_trace model 2025 3 (Date.mk 2025 3 1)).
  - split; [reflexivity |]. split; [reflexivity |]. intros model t.
    now apply predict_month_historical.
Qed.

Lemma horizon_from_cutoff_witness :
  Date.datetime 2026 2 1 = Ok (Date.mk 2026 2 1)
  /\ months_ahead_of (Date.mk 2026 2 1) = (2026 - 2024) * 12 + (2 - 12)
  /\ snd (_predict_month ramp_model 2026 2 []) = [ModelForecast 14].
Proof.
  destruct horizon_from_cutoff as (_ & H1 & H2 & _).
  split; [reflexivity |]. split.
  - apply (H1 2026 2). reflexivity.
  - apply (H2 ramp_model 2026 2 (Date.mk 2026 2 1) []); reflexivity.
Defined.

(** C3.  For a year and month whose horizon is at most 0,
    [_predict_month] returns the entry with price 0 and note
    "Historical data", without bounds, and leaves the trace unchanged: the
    model is not asked for anything. *)
Theorem historical_month_short_circuits model y m d t :
  Date.datetime y m 1 = Ok d ->
  months_ahead_of d <= 0 ->
  _predict_month model y m t
  = (Ok {| month := Date.strftime_B d;
           year := y;
           predicted_price := 0;
           lower_bound := None;
           upper_bound := None;
           note := Some "Historical data"%string |}, t).
Proof. apply predict_month_historical. Qed.

Lemma historical_month_short_circuits_witness :
  _predict_month broken_model 2024 12 [ModelForecast 7]
  = (Ok {| month := "December"; year := 2024; predicted_price := 0;
           lower_bound := None; upper_bound := None;
           note := Some "Historical data"%string |}, [ModelForecast 7]).
Proof.
  apply (historical_month_short_circuits broken_model 2024 12
           (Date.mk 2024 12 1) [ModelForecast 7]).
  - reflexivity.
  - vm_compute. discriminate.
Defined.

(** C4.  When [predict_year] succeeds it returns exactly twelve entries,
    the i-th being what [_predict_month] returned for month i: their month
    names are January to December in calendar order (month numbers 1 to
    12) and each carries the requested year. *)
Theorem predict_year_twelve_in_calendar_order model y t ps t' :
  predict_year model y t = (Ok ps, t') ->
  List.length ps = 12%nat
  /\ map month ps = Date.month_names
  /\ map (fun p => month_number (month p)) ps = range 1 13
  /\ Forall (fun p => year p = y) ps
  /\ map_m (_predict_month model y) (range 1 13) t = (Ok ps, t').
Proof.
  intros H. split; [eapply predict_year_length; eassumption |].
  split; [eapply predict_year_months; eassumption |].
  split; [| split].
  - rewrite <- (map_map month month_number).
    erewrite predict_year_months by eassumption. reflexivity.
  - eapply predict_year_years; eassumption.
  - now apply predict_year_ok.
Qed.

Lemma predict_year_twelve_in_calendar_order_witness :
  map predicted_price
    (match fst (predict_year ramp_model 2025 []) with
     | Ok ps => ps | Err _ => [] end)
  = map inject_Z [10; 20; 30; 40; 50; 60; 70; 80; 90; 100; 110; 120]
  /\ map month
       (match fst (predict_year ramp_model 2025 []) with
        | Ok ps => ps | Err _ => [] end)
     = Date.month_names.
Proof.
  split; [vm_compute; reflexivity |].
  apply (predict_year_twelve_in_calendar_order ramp_model 2025 []
           _ (snd (predict_year ramp_model 2025 []))).
  vm_compute. reflexivity.
Defined.

(** ** Ranking facts shared by the claims on [get_best_months] *)

Lemma month_names_nodup : NoDup Date.month_names.
Proof.
  unfold Date.month_names.
  repeat (constructor; [cbn; intuition discriminate |]). constructor.
Qed.

Lemma nodup_map_app_disjoint {A B} (f : A -> B) (l1 l2 : list A) :
  NoDup (map f (l1 ++ l2)) ->
  forall a b, In a l1 -> In b l2 -> f a <> f b.
Proof.
  induction l1 as [| x l1 IH]; cbn; intros H a b Ha Hb; [contradiction |].
  inversion H as [| ? ? Hx Hnd]. subst.
  destruct Ha as [<- | Ha].
  - intros E. apply Hx. rewrite E. apply in_map, in_or_app. now right.
  - now apply IH.
Qed.

Lemma ascending_map {A B} (f : A -> B) (ka : A -> Q) (kb : B -> Q) l :
  (forall a, kb (f a) = ka a) ->
  StronglySorted (key_le ka) l -> StronglySorted (key_le kb) (map f l).
Proof.
  intros Hk. induction 1 as [| x l Hs IH Hx]; cbn; constructor.
  - exact IH.
  - apply Forall_forall. intros y Hy. apply in_map_iff in Hy.
    destruct Hy as (z & <- & Hz). rewrite Forall_forall in Hx.
    unfold key_le in *. rewrite !Hk. now apply Hx.
Qed.

Section Ranking.
Variable model : Z -> result (list forecast_row).
Variables (y : Z) (t t' : trace) (ps : list prediction).
Hypothesis Hyear : predict_year model y t = (Ok ps, t').

Let s := sorted predicted_price ps.

Lemma ranked_months_nodup : NoDup (map month s).
Proof.
  apply (Permutation_NoDup (l := Date.month_names)).
  - rewrite <- (predict_year_months _ _ _ _ _ Hyear).
    apply Permutation_map, Permutation_sym, sorted_perm.
  - apply month_names_nodup.
Qed.

Lemma ranked_length : List.length s = 12%nat.
Proof.
  unfold s. rewrite sorted_length.
  eapply predict_year_length. exact Hyear.
Qed.

(** Ties leave the sort in calendar order. *)
Lemma ranked_ties_calendar a b :
  before a b s -> (predicted_price a == predicted_price b)%Q ->
  month_number (month a) < month_number (month b).
Proof.
  intros H E. apply sorted_stable in H; [| exact E].
  apply (before_map month) in H.
  rewrite (predict_year_months _ _ _ _ _ Hyear) in H.
  apply before_index_of in H; [| apply month_names_nodup].
  unfold month_number. lia.
Qed.

(** The first three and the last three positions do not overlap. *)
Lemma ranked_ends_disjoint a b :
  In a (firstn 3 s) -> In b (skipn 9 s) -> month a <> month b.
Proof.
  intros Ha Hb.
  apply (nodup_map_app_disjoint month (firstn 3 s) (skipn 3 s)).
  - rewrite firstn_skipn. apply ranked_months_nodup.
  - exact Ha.
  - change 9%nat with (6 + 3)%nat in Hb. rewrite <- skipn_skipn in Hb.
    eapply in_skipn_in. exact Hb.
Qed.

Lemma ranked_low_is_minimum d p :
  In p ps -> (predicted_price (hd d s) <= predicted_price p)%Q.
Proof.
  intros Hp. apply (Permutation_in _ (Permutation_sym (sorted_perm predicted_price ps))) in Hp.
  fold s in Hp. pose proof (sorted_ascending predicted_price ps) as Hs.
  fold s in Hs. destruct s as [| x l]; [contradiction |].
  cbn. inversion Hs as [| ? ? _ Hx]. subst.
  destruct Hp as [<- | Hp]; [apply Qle_refl |].
  rewrite Forall_forall in Hx. now apply Hx.
Qed.

Lemma ranked_high_is_maximum d p :
  In p ps -> (predicted_price p <= predicted_price (last s d))%Q.
Proof.
  intros Hp. apply (Permutation_in _ (Permutation_sym (sorted_perm predicted_price ps))) in Hp.
  fold s in Hp. pose proof (sorted_ascending predicted_price ps) as Hs.
  fold s in Hs.
  assert (Hne : s <> []) by (intros C; rewrite C in Hp; contradiction).
  rewrite (app_removelast_last d Hne) in Hp, Hs.
  apply in_app_or in Hp. destruct Hp as [Hp | [<- | []]].
  - eapply (ascending_app predicted_price); [exact Hs | exact Hp | now left].
  - apply Qle_refl.
Qed.
End Ranking.

(** C5.  The ranking is stable: when two entries of [best_buy_months], or
    two entries of [best_sell_months], carry equal prices, the one listed
    first is the earlier calendar month. *)
Theorem ranking_ties_keep_calendar_order model y t r t' :
  get_best_months model y t = (Ok r, t') ->
  forall a b,
    before a b (best_buy_months r) \/ before a b (best_sell_months r) ->
    (price a == price b)%Q ->
    month_number (rec_month a) < month_number (rec_month b).
Proof.
  intros H a b Hab E.
  destruct (get_best_months_ok _ _ _ _ _ (historical 0 last_training_date) H)
    as (ps & Hp & Hbuy & Hsell & _).
  destruct Hab as [Hab | Hab].
  - rewrite Hbuy in Hab. apply before_map_inv in Hab.
    destruct Hab as (a' & b' & -> & -> & Hab).
    cbn [buy_entry sell_entry price rec_month] in *.
    apply before_firstn in Hab.
    eapply ranked_ties_calendar; eassumption.
  - rewrite Hsell in Hab. apply before_map_inv in Hab.
    destruct Hab as (a' & b' & -> & -> & Hab).
    cbn [buy_entry sell_entry price rec_month] in *.
    apply before_skipn in Hab.
    eapply ranked_ties_calendar; eassumption.
Qed.

Lemma ranking_ties_keep_calendar_order_witness :
  month_number "October" < month_number "November".
Proof.
  apply (fun H => ranking_ties_keep_calendar_order flat_model 2025 []
           (match fst (get_best_months flat_model 2025 []) with
            | Ok r => r
            | Err _ => no_result
            end)
           (snd (get_best_months flat_model 2025 [])) H
           (sell_entry (mk_prediction "October" 2025 50 (Some 49%Q)
                          (Some 51%Q) None))
           (sell_entry (mk_prediction "November" 2025 50 (Some 49%Q)
                          (Some 51%Q) None))).
  - vm_compute. reflexivity.
  - right. exists [], [].
    exists [sell_entry (mk_prediction "December" 2025 50 (Some 49%Q)
                          (Some 51%Q) None)].
    vm_compute. reflexivity.
  - vm_compute. reflexivity.
Defined.

(** C6.  On a year forecast of twelve months, [best_buy_months] is the
    first three entries of the price-ascending sort, so the three lowest
    prices, and [best_sell_months] the last three, the three highest, still
    ascending; [annual_low] is the price of the first buy entry and the
    lowest of the year, [annual_high] the price of the last sell entry and
    the highest of the year.  With prices 10, 20, ..., 120 for January to
    December the result is January, February, March at 10, 20, 30 and
    October, November, December at 100, 110, 120, averages 20 and 110,
    margin 450. *)
Theorem best_buy_lowest_best_sell_highest :
  (forall model y t r t' d,
     get_best_months model y t = (Ok r, t') ->
     exists ps,
       predict_year model y t = (Ok ps, t')
       /\ List.length ps = 12%nat
       /\ let s := sorted predicted_price ps in
          Permutation s ps
          /\ StronglySorted (key_le predicted_price) s
          /\ best_buy_months r = map buy_entry (firstn 3 s)
          /\ best_sell_months r = map sell_entry (skipn 9 s)
          /\ List.length (best_buy_months r) = 3%nat
          /\ List.length (best_sell_months r) = 3%nat
          /\ (forall a p, In a (best_buy_months r) -> In p (skipn 3 s) ->
                          (price a <= predicted_price p)%Q)
          /\ (forall b p, In b (best_sell_months r) -> In p (firstn 9 s) ->
                          (predicted_price p <= price b)%Q)
          /\ StronglySorted (key_le price) (best_sell_months r)
          /\ annual_low (profit_analysis r)
             = price (hd (buy_entry d) (best_buy_months r))
          /\ annual_high (profit_analysis r)
             = price (last (best_sell_months r) (sell_entry d))
          /\ (forall p, In p ps ->
                (annual_low (profit_analysis r) <= predicted_price p)%Q
                /\ (predicted_price p <= annual_high (profit_analysis r))%Q))
  /\ fst (get_best_months ramp_model 2025 []) =
     Ok {| bm_year := 2025;
           best_buy_months :=
             [ {| rec_month := "January"; price := 10;
                  reason := "Post-holiday prices usually drop" |};
               {| rec_month := "February"; price := 20;
                  reason := "Short month, stable low prices" |};
               {| rec_month := "March"; price := 30;
                  reason := "Before peak season price rise" |} ];
           best_sell_months :=
             [ {| rec_month := "October"; price := 100;
                  reason := "Pre-holiday stocking begins" |};
               {| rec_month := "November"; price := 110;
                  reason := "Holiday preparation peak" |};
               {| rec_month := "December"; price := 120;
                  reason := "Highest holiday season prices" |} ];
           profit_analysis :=
             {| average_buy_price := 20;
                average_sell_price := 110;
                potential_profit_margin := 450;
                annual_low := 10;
                annual_high := 120 |} |}.
Proof.
  split; [| vm_compute; reflexivity].
  intros model y t r t' d H.
  destruct (get_best_months_ok _ _ _ _ _ d H)
    as (ps & Hp & Hbuy & Hsell & Hlow & Hhigh & _).
  exists ps. split; [exact Hp |].
  pose proof (predict_year_length _ _ _ _ _ Hp) as Hl.
  split; [exact Hl |]. cbv zeta.
  pose proof (sorted_perm predicted_price ps) as Hperm.
  pose proof (sorted_ascending predicted_price ps) as Hasc.
  pose proof (sorted_length predicted_price ps) as Hsl. rewrite Hl in Hsl.
  pose proof (ranked_low_is_minimum ps d) as Hmin.
  pose proof (ranked_high_is_maximum ps d) as Hmax.
  set (s := sorted predicted_price ps) in *.
  split; [exact Hperm |]. split; [exact Hasc |].
  split; [exact Hbuy |]. split; [exact Hsell |].
  split; [rewrite Hbuy, length_map, length_firstn, Hsl; reflexivity |].
  split; [rewrite Hsell, length_map, length_skipn, Hsl; reflexivity |].
  split; [| split; [| split; [| split; [| split]]]].
  - intros a p Ha Hq. rewrite Hbuy in Ha. apply in_map_iff in Ha.
    destruct Ha as (a' & <- & Ha). cbn.
    apply (ascending_app predicted_price (firstn 3 s) (skipn 3 s));
      [now rewrite firstn_skipn | exact Ha | exact Hq].
  - intros b p Hb Hq. rewrite Hsell in Hb. apply in_map_iff in Hb.
    destruct Hb as (b' & <- & Hb). cbn.
    apply (ascending_app predicted_price (firstn 9 s) (skipn 9 s));
      [now rewrite firstn_skipn | exact Hq | exact Hb].
  - rewrite Hsell.
    apply (ascending_map sell_entry predicted_price price);
      [reflexivity |].
    apply (ascending_app_r predicted_price (firstn 9 s)).
    now rewrite firstn_skipn.
  - rewrite Hlow, Hbuy. clear - Hsl. clearbody s. twelve s Hsl. reflexivity.
  - rewrite Hhigh, Hsell. clear - Hsl. clearbody s. twelve s Hsl. reflexivity.
  - intros p Hq. rewrite Hlow, Hhigh. split; [now apply Hmin | now apply Hmax].
Qed.

Lemma best_buy_lowest_best_sell_highest_witness :
  exists ps,
    predict_year flat_model 2026 [] = (Ok ps, snd (predict_year flat_model 2026 []))
    /\ List.length ps = 12%nat.
Proof.
  destruct (proj1 best_buy_lowest_best_sell_highest flat_model 2026 []
              (match fst (get_best_months flat_model 2026 []) with
               | Ok r => r
               | Err _ => no_result
               end)
              (snd (get_best_months flat_model 2026 []))
              (historical 0 last_training_date))
    as (ps & Hp & Hl & _).
  - vm_compute. reflexivity.
  - exists ps. split; [| exact Hl].
    rewrite Hp. vm_compute. reflexivity.
Defined.

(** C10.  No calendar month is recommended both for buying and for
    selling: an entry of [best_buy_months] and an entry of
    [best_sell_months] never name the same month. *)
Theorem buy_and_sell_months_disjoint model y t r t' :
  get_best_months model y t = (Ok r, t') ->
  forall a b,
    In a (best_buy_months r) -> In b (best_sell_months r) ->
    rec_month a <> rec_month b.
Proof.
  intros H a b Ha Hb.
  destruct (get_best_months_ok _ _ _ _ _ (historical 0 last_training_date) H)
    as (ps & Hp & Hbuy & Hsell & _).
  rewrite Hbuy in Ha. rewrite Hsell in Hb.
  apply in_map_iff in Ha, Hb.
  destruct Ha as (a' & <- & Ha). destruct Hb as (b' & <- & Hb). cbn.
  eapply ranked_ends_disjoint; eassumption.
Qed.

Lemma buy_and_sell_months_disjoint_witness :
  "January"%string <> "December"%string.
Proof.
  apply (fun H => buy_and_sell_months_disjoint flat_model 2025 []
           (match fst (get_best_months flat_model 2025 []) with
            | Ok r => r
            | Err _ => no_result
            end)
           (snd (get_best_months flat_model 2025 [])) H
           (buy_entry (mk_prediction "January" 2025 50 (Some 49%Q)
                         (Some 51%Q) None))
           (sell_entry (mk_prediction "December" 2025 50 (Some 49%Q)
                          (Some 51%Q) None))).
  - vm_compute. reflexivity.
  - vm_compute. left. reflexivity.
  - vm_compute. right. right. left. reflexivity.
Defined.

(** ** [get_multi_year_predictions] *)

Lemma in_range lo hi y : In y (range lo hi) <-> lo <= y < hi.
Proof.
  unfold range. rewrite in_map_iff. split.
  - intros (i & <- & Hi). apply in_seq in Hi. lia.
  - intros H. exists (Z.to_nat (y - lo)). split; [lia |].
    apply in_seq. lia.
Qed.

Lemma range_nodup lo hi : NoDup (range lo hi).
Proof.
  unfold range. apply Finite.Injective_map_NoDup; [| apply seq_NoDup].
  intros i j H. lia.
Qed.

Lemma range_length lo hi : List.length (range lo hi) = Z.to_nat (hi - lo).
Proof. unfold range. now rewrite length_map, length_seq. Qed.

Lemma range_nth lo hi i d :
  (i < Z.to_nat (hi - lo))%nat -> nth i (range lo hi) d = lo + Z.of_nat i.
Proof.
  intros H. unfold range.
  rewrite (nth_indep _ d (lo + Z.of_nat 0))
    by (now rewrite length_map, length_seq).
  rewrite (map_nth (fun i => lo + Z.of_nat i)), seq_nth by exact H.
  reflexivity.
Qed.

Lemma dict_set_fresh {V} (d : list (Z * V)) k v :
  ~ In k (map fst d) -> dict_set d k v = d ++ [(k, v)].
Proof.
  induction d as [| [k' w] d IH]; cbn; intros H; [reflexivity |].
  destruct (k' =? k) eqn:E.
  - apply Z.eqb_eq in E. exfalso. apply H. now left.
  - rewrite IH; [reflexivity |]. intros C. apply H. now right.
Qed.

(** Assigning distinct new keys one after the other appends them. *)
Lemma fold_dict_set_fresh {V} :
  forall (ys : list Z) (vs : list V) (acc : list (Z * V)),
    NoDup ys ->
    (forall k, In k (map fst acc) -> ~ In k ys) ->
    fold_left (fun a (xb : Z * V) => dict_set a (fst xb) (snd xb))
              (combine ys vs) acc
    = acc ++ combine ys vs.
Proof.
  induction ys as [| y ys IH]; intros vs acc Hnd Hfresh.
  - cbn. now rewrite app_nil_r.
  - destruct vs as [| v vs]; cbn [combine fold_left fst snd].
    + now rewrite app_nil_r.
    + inversion Hnd as [| ? ? Hy Hnd']. subst.
      rewrite dict_set_fresh.
      * rewrite IH; [now rewrite <- app_assoc | exact Hnd' |].
        intros k Hk. rewrite map_app in Hk. apply in_app_or in Hk.
        destruct Hk as [Hk | [<- | []]].
        -- intros C. apply (Hfresh k Hk). now right.
        -- exact Hy.
      * intros C. apply (Hfresh y C). now left.
Qed.

Lemma get_multi_year_predictions_map_m model now years t :
  get_multi_year_predictions model now years t =
  match map_m (predict_year model) (range now (now + years)) t with
  | (Ok pss, t') => (Ok (combine (range now (now + years)) pss), t')
  | (Err e, t') =>
      (Err (Exception ("Multi-year prediction failed: " ++ exn_str e)%string), t')
  end.
Proof.
  unfold get_multi_year_predictions, try_reraise.
  rewrite (for_each_map_m (predict_year model)
             (fun acc y ps => dict_set acc y ps)).
  unfold bind.
  destruct (map_m (predict_year model) (range now (now + years)) t)
    as [[pss | e] t1]; [| reflexivity].
  unfold ret. rewrite fold_dict_set_fresh.
  - reflexivity.
  - apply range_nodup.
  - intros k [].
Qed.

Lemma combine_fst {A B} : forall (xs : list A) (ys : list B),
  List.length ys = List.length xs -> map fst (combine xs ys) = xs.
Proof.
  induction xs as [| x xs IH]; intros [| y ys] H; try discriminate H.
  - reflexivity.
  - cbn. f_equal. apply IH. now inversion H.
Qed.

Lemma combine_snd {A B} : forall (xs : list A) (ys : list B),
  List.length ys = List.length xs -> map snd (combine xs ys) = ys.
Proof.
  induction xs as [| x xs IH]; intros [| y ys] H; try discriminate H.
  - reflexivity.
  - cbn. f_equal. apply IH. now inversion H.
Qed.

Lemma get_multi_year_predictions_ok model now years t d t' :
  get_multi_year_predictions model now years t = (Ok d, t') ->
  map fst d = range now (now + years)
  /\ List.length d = Z.to_nat years
  /\ map_m (predict_year model) (range now (now + years)) t
     = (Ok (map snd d), t').
Proof.
  rewrite get_multi_year_predictions_map_m.
  destruct (map_m (predict_year model) (range now (now + years)) t)
    as [[pss | e] t1] eqn:E; [| discriminate].
  intros H. inversion H. subst. clear H.
  pose proof (map_m_length _ _ _ _ _ E) as Hl.
  rewrite combine_fst, combine_snd by exact Hl.
  split; [reflexivity |]. split; [| reflexivity].
  rewrite length_combine, Hl, Nat.min_id, range_length. f_equal. lia.
Qed.

(** C7.  [get_multi_year_predictions years] maps each year of the half-open
    range from the current year to the current year plus [years], in
    ascending order, to what [predict_year] returned for it; when a year
    fails the method raises "Multi-year prediction failed", no mapping is
    returned and no later year is attempted. *)
Theorem multi_year_covers_range_fail_fast model now years t :
  (forall d t',
     get_multi_year_predictions model now years t = (Ok d, t') ->
     map fst d = range now (now + years)
     /\ (forall y, In y (map fst d) <-> now <= y < now + years)
     /\ List.length d = Z.to_nat years
     /\ map_m (predict_year model) (range now (now + years)) t
        = (Ok (map snd d), t'))
  /\ (forall ys1 y ys2 pss t1 e t2,
        range now (now + years) = ys1 ++ y :: ys2 ->
        map_m (predict_year model) ys1 t = (Ok pss, t1) ->
        predict_year model y t1 = (Err e, t2) ->
        get_multi_year_predictions model now years t
        = (Err (Exception
                  ("Multi-year prediction failed: " ++ exn_str e)%string), t2)).
Proof.
  split.
  - intros d t' H.
    apply get_multi_year_predictions_ok in H. destruct H as (Hk & Hl & Hm).
    split; [exact Hk |]. split; [rewrite Hk; apply in_range |].
    split; [exact Hl | exact Hm].
  - intros ys1 y ys2 pss t1 e t2 Hr H1 H2.
    rewrite get_multi_year_predictions_map_m, Hr.
    now rewrite (map_m_fail_fast _ _ _ _ _ _ _ _ _ H1 H2).
Qed.

Lemma multi_year_covers_range_fail_fast_witness :
  map fst (match fst (get_multi_year_predictions ramp_model 2025 2 []) with
           | Ok d => d | Err _ => [] end) = [2025; 2026]
  /\ get_multi_year_predictions short_model 2025 3 []
     = (Err (Exception
               "Multi-year prediction failed: Year prediction failed: Month prediction failed: horizon too long"),
        snd (predict_year short_model 2026
               (snd (predict_year short_model 2025 [])))).
Proof.
  split.
  - apply (proj1 (multi_year_covers_range_fail_fast ramp_model 2025 2 [])
             _ (snd (get_multi_year_predictions ramp_model 2025 2 []))).
    vm_compute. reflexivity.
  - apply (proj2 (multi_year_covers_range_fail_fast short_model 2025 3 [])
             [2025] 2026 [2027]
             (match fst (map_m (predict_year short_model) [2025] []) with
              | Ok pss => pss | Err _ => [] end)
             (snd (predict_year short_model 2025 []))
             (Exception
                "Year prediction failed: Month prediction failed: horizon too long")).
    + reflexivity.
    + vm_compute. reflexivity.
    + vm_compute. reflexivity.
Defined.

(** ** The chart series *)

Lemma chart_series_flat_map d :
  chart_series d =
  (flat_map (fun e => map (chart_label (fst e)) (snd e)) d,
   flat_map (fun e => map predicted_price (snd e)) d).
Proof.
  unfold chart_series.
  assert (Inner : forall y (mds : list prediction) a b,
             fold_left
               (fun acc' md =>
                  let '(all_months, all_prices) := acc' in
                  (all_months ++ [chart_label y md],
                   all_prices ++ [predicted_price md]))
               mds (a, b)
             = (a ++ map (chart_label y) mds, b ++ map predicted_price mds)).
  { intros y mds. induction mds as [| md mds IH]; intros a b; cbn.
    - now rewrite !app_nil_r.
    - rewrite IH, <- !app_assoc. reflexivity. }
  enough (Outer : forall a b,
             fold_left
               (fun acc (entry : Z * list prediction) =>
                  let '(year_, months_data) := entry in
                  fold_left
                    (fun acc' md =>
                       let '(all_months, all_prices) := acc' in
                       (all_months ++ [chart_label year_ md],
                        all_prices ++ [predicted_price md]))
                    months_data acc)
               d (a, b)
             = (a ++ flat_map (fun e => map (chart_label (fst e)) (snd e)) d,
                b ++ flat_map (fun e => map predicted_price (snd e)) d))
    by apply Outer.
  induction d as [| [y mds] d IH]; intros a b; cbn [fold_left flat_map fst snd].
  - now rewrite !app_nil_r.
  - rewrite Inner, IH, <- !app_assoc. reflexivity.
Qed.

Lemma flat_map_uniform_length {A B} (f : A -> list B) k l :
  Forall (fun x => List.length (f x) = k) l ->
  List.length (flat_map f l) = (k * List.length l)%nat.
Proof.
  induction 1 as [| x l Hx _ IH]; cbn; [lia |].
  rewrite length_app, Hx, IH. lia.
Qed.

Lemma flat_map_uniform_nth {A B} (f : A -> list B) k l da db :
  Forall (fun x => List.length (f x) = k) l ->
  forall i j, (i < List.length l)%nat -> (j < k)%nat ->
    nth (k * i + j) (flat_map f l) db = nth j (f (nth i l da)) db.
Proof.
  induction 1 as [| x l Hx _ IH]; intros i j Hi Hj; cbn in Hi; [lia |].
  cbn [flat_map]. destruct i as [| i].
  - rewrite Nat.mul_0_r, app_nth1 by lia. reflexivity.
  - rewrite app_nth2 by lia. rewrite Hx.
    replace (k * S i + j - k)%nat with (k * i + j)%nat by lia.
    cbn [nth]. apply IH; lia.
Qed.

(** The last two characters of the decimal rendering of a four-digit-range
    year are its last two digits. *)
Lemma year_suffix_two_digits y :
  10 <= y <= 9999 -> str_suffix 2 (str y) = two_digits (y mod 100).
Proof.
  intros H.
  assert (C : forallb (fun y => String.eqb (str_suffix 2 (str y))
                                           (two_digits (y mod 100)))
                      (range 10 10000) = true)
    by (vm_compute; reflexivity).
  rewrite forallb_forall in C. apply String.eqb_eq, C, in_range. lia.
Qed.

Lemma month_prefix_abbr j :
  (j < 12)%nat ->
  str_prefix 3 (nth j Date.month_names ""%string) = nth j month_abbr ""%string.
Proof.
  intros H. do 12 (destruct j as [| j]; [reflexivity |]). lia.
Qed.

Lemma Forall2_fst_snd {A B} (R : A -> B -> Prop) (d : list (A * B)) :
  Forall2 R (map fst d) (map snd d) -> Forall (fun e => R (fst e) (snd e)) d.
Proof.
  induction d as [| e d IH]; cbn; intros H; constructor; inversion H; auto.
Qed.

(** C9.  The series charted from a multi-year forecast of n years has
    12 * n labels and 12 * n prices; the point at position 12 * i + j is
    month j + 1 of the i-th year, so years ascend and months follow the
    calendar within a year; its label is the month's three-letter
    abbreviation, a space and the two-digit year, its price the predicted
    price of that month.  This is the series [generate_price_chart] hands
    to the plot.  (The year part of a label is the last two characters of
    the year's decimal form: two digits as soon as the clock's year has
    two.) *)
Theorem chart_series_points model now stamp years t d t' :
  get_multi_year_predictions model now years t = (Ok d, t') ->
  let n := List.length d in
  let labels := fst (chart_series d) in
  let prices := snd (chart_series d) in
  n = Z.to_nat years
  /\ List.length labels = (12 * n)%nat
  /\ List.length prices = (12 * n)%nat
  /\ (forall i j, (i < n)%nat -> (j < 12)%nat ->
        exists ps p,
          nth_error d i = Some (now + Z.of_nat i, ps)
          /\ nth_error ps j = Some p
          /\ month p = nth j Date.month_names ""%string
          /\ nth (12 * i + j) labels ""%string
             = (nth j month_abbr "" ++ " "
                ++ str_suffix 2 (str (now + Z.of_nat i)))%string
          /\ (10 <= now ->
              str_suffix 2 (str (now + Z.of_nat i))
              = two_digits ((now + Z.of_nat i) mod 100))
          /\ nth (12 * i + j) prices 0%Q = predicted_price p)
  /\ snd (generate_price_chart model now stamp years t)
     = t' ++ [Plot labels prices].
Proof.
  intros H n labels prices.
  destruct (get_multi_year_predictions_ok _ _ _ _ _ _ H) as (Hkeys & Hlen & Hm).
  apply map_m_Forall2 in Hm. rewrite <- Hkeys in Hm.
  apply Forall2_fst_snd in Hm.
  assert (H12 : Forall (fun e : Z * list prediction =>
                          List.length (snd e) = 12%nat) d).
  { eapply Forall_impl; [| exact Hm]. intros e (t1 & t2 & He).
    eapply predict_year_length. exact He. }
  subst labels prices. rewrite chart_series_flat_map. cbn [fst snd].
  split; [exact Hlen |].
  split.
  { apply flat_map_uniform_length.
    eapply Forall_impl; [| exact H12]. intros e He. now rewrite length_map. }
  split.
  { apply flat_map_uniform_length.
    eapply Forall_impl; [| exact H12]. intros e He. now rewrite length_map. }
  split.
  - intros i j Hi Hj. fold n in Hlen.
    set (d0 := (0, @nil prediction)).
    set (p0 := historical 0 last_training_date).
    set (e := nth i d d0).
    assert (Hin : In e d) by (apply nth_In; exact Hi).
    rewrite Forall_forall in Hm.
    destruct (Hm e Hin) as (t1 & t2 & He).
    pose proof (proj1 (Forall_forall _ _) H12 e Hin) as He12. cbv beta in He12.
    assert (U : forall B (g : Z -> prediction -> B),
               Forall (fun x : Z * list prediction =>
                         List.length (map (g (fst x)) (snd x)) = 12%nat) d).
    { intros B g. eapply Forall_impl; [| exact H12].
      intros x Hx. now rewrite length_map. }
    assert (Hy : fst e = now + Z.of_nat i).
    { unfold e. rewrite <- (map_nth fst), Hkeys. apply range_nth. lia. }
    exists (snd e), (nth j (snd e) p0).
    split.
    { rewrite <- Hy, <- surjective_pairing. apply nth_error_nth'. exact Hi. }
    split; [apply nth_error_nth'; lia |].
    assert (Hmonth : month (nth j (snd e) p0) = nth j Date.month_names ""%string).
    { rewrite <- (predict_year_months _ _ _ _ _ He).
      rewrite (nth_indep _ ""%string (month p0))
        by (rewrite length_map; lia).
      now rewrite map_nth. }
    split; [exact Hmonth |]. split; [| split].
    + rewrite (flat_map_uniform_nth _ 12 d d0)
        by (try lia; apply (U _ chart_label)).
      fold e.
      rewrite (nth_indep _ ""%string (chart_label (fst e) p0))
        by (rewrite length_map; lia).
      rewrite map_nth. unfold chart_label.
      rewrite Hmonth, month_prefix_abbr by exact Hj.
      now rewrite Hy.
    + intros Hnow. apply year_suffix_two_digits.
      apply predict_year_valid in He. lia.
    + rewrite (flat_map_uniform_nth _ 12 d d0)
        by (try lia; apply (U _ (fun _ => predicted_price))).
      fold e.
      rewrite (nth_indep _ 0%Q (predicted_price p0))
        by (rewrite length_map; lia).
      now rewrite map_nth.
  - unfold generate_price_chart, try_reraise.
    rewrite (bind_eq_ok _ _ _ _ _ H), chart_series_flat_map.
    reflexivity.
Qed.

Lemma chart_series_points_witness :
  List.length
    (fst (chart_series
            (match fst (get_multi_year_predictions ramp_model 2025 2 []) with
             | Ok d => d | Err _ => [] end))) = 24%nat
  /\ nth 13
       (fst (chart_series
               (match fst (get_multi_year_predictions ramp_model 2025 2 []) with
                | Ok d => d | Err _ => [] end))) ""%string
     = "Feb 26"%string.
Proof.
  destruct (chart_series_points ramp_model 2025 "20250101_000000" 2 []
              (match fst (get_multi_year_predictions ramp_model 2025 2 []) with
               | Ok d => d | Err _ => [] end)
              (snd (get_multi_year_predictions ramp_model 2025 2 [])))
    as (_ & Hl & _ & Hp & _).
  - vm_compute. reflexivity.
  - split; [exact Hl |].
    destruct (Hp 1%nat 1%nat) as (ps & p & _ & _ & _ & Hlabel & Hyy & _).
    + vm_compute. lia.
    + lia.
    + change 13%nat with (12 * 1 + 1)%nat.
      rewrite Hlabel, Hyy by lia. reflexivity.
Defined.

(** ** The request layer *)

Section ViewFacts.
Variable int_of_str : string -> result Z.
Variable now_year : Z.
Variable predictor : predictor_t.

Lemma int_param_year request t :
  views.int_param int_of_str request "year" now_year t
  = (requested_year int_of_str now_year request, t).
Proof.
  unfold views.int_param, requested_year.
  destruct (QueryDict_get (GET request) "year"); reflexivity.
Qed.

(** [best_buy_months] answers 400 to a past year and touches nothing:
    whatever the predictor is, its methods are not run. *)
Lemma best_buy_months_rejects_past_year request y t :
  requested_year int_of_str now_year request = Ok y -> y < now_year ->
  views.best_buy_months int_of_str now_year predictor request t
  = (Ok (json_error "Cannot analyze past years" 400), t).
Proof.
  intros Hy Hlt. unfold views.best_buy_months, views.try_500.
  rewrite (bind_eq_ok _ _ t y t) by (now rewrite int_param_year, Hy).
  apply Z.ltb_lt in Hlt. rewrite Hlt. reflexivity.
Qed.

Lemma best_sell_months_rejects_past_year request y t :
  requested_year int_of_str now_year request = Ok y -> y < now_year ->
  views.best_sell_months int_of_str now_year predictor request t
  = (Ok (json_error "Cannot analyze past years" 400), t).
Proof.
  intros Hy Hlt. unfold views.best_sell_months, views.try_500.
  rewrite (bind_eq_ok _ _ t y t) by (now rewrite int_param_year, Hy).
  apply Z.ltb_lt in Hlt. rewrite Hlt. reflexivity.
Qed.

(** [complete_analysis] has no such check: with the default chart span
    the first thing it does with the year is to run [get_best_months]. *)
Lemma complete_analysis_calls_advisor request y t :
  requested_year int_of_str now_year request = Ok y ->
  QueryDict_get (GET request) "chart_years" = None ->
  snd (views.complete_analysis int_of_str now_year predictor request t)
  = snd (bind (p_get_best_months predictor y)
           (fun _ => bind (p_get_multi_year_predictions predictor 3)
                       (fun _ => p_generate_price_chart predictor 3)) t).
Proof.
  intros Hy Hc. unfold views.complete_analysis, views.try_500.
  rewrite (bind_eq_ok _ _ t y t) by (now rewrite int_param_year, Hy).
  rewrite (bind_eq_ok _ _ t 3 t)
    by (unfold views.int_param; now rewrite Hc).
  unfold bind.
  destruct (p_get_best_months predictor y t) as [[bm | e] t1]; [| reflexivity].
  destruct (p_get_multi_year_predictions predictor 3 t1) as [[ps | e] t2];
    [| reflexivity].
  destruct (p_generate_price_chart predictor 3 t2) as [[path | e] t3];
    reflexivity.
Qed.
End ViewFacts.

(** C8 (the code departs from the claim).  In 2027, asked about 2026,
    [best_buy_months] and [best_sell_months] answer 400 "Cannot analyze
    past years" without running anything, but [complete_analysis] runs
    [get_best_months] on 2026, twelve model requests, and answers 200; in
    2025, asked about 2024, it answers 500 with the advisor's own failure
    rather than 400. *)
Theorem complete_analysis_accepts_past_year :
  let predictor := ChickMashPredictor ramp_model 2027 "20270101_000000" in
  let request := mk_request [("year", "2026")] in
  views.best_buy_months int_of_digits 2027 predictor request []
  = (Ok (json_error "Cannot analyze past years" 400), [])
  /\ views.best_sell_months int_of_digits 2027 predictor request []
     = (Ok (json_error "Cannot analyze past years" 400), [])
  /\ (exists r t',
        views.complete_analysis int_of_digits 2027 predictor request []
        = (Ok r, t')
        /\ status r = 200 /\ success r = true
        /\ firstn 12 t' = map ModelForecast (range 13 25))
  /\ views.complete_analysis int_of_digits 2025
       (ChickMashPredictor ramp_model 2025 "20250101_000000")
       (mk_request [("year", "2024")]) []
     = (Ok (json_error
              "Best months analysis failed: float division by zero" 500), []).
Proof.
  cbv zeta. split; [vm_compute; reflexivity |].
  split; [vm_compute; reflexivity |].
  split; [| vm_compute; reflexivity].
  eexists. eexists. split; [vm_compute; reflexivity |].
  split; [reflexivity |]. split; [reflexivity |]. vm_compute. reflexivity.
Qed.

(** * Further properties of the code *)

(** ** [_predict_month] past the cut-off *)

Lemma filter_find_some {A} (p : A -> bool) l x :
  find p l = Some x -> exists rest, filter p l = x :: rest.
Proof.
  induction l as [| y l IH]; cbn; [discriminate |].
  destruct (p y) eqn:E.
  - intros H. inversion H. subst. now exists (filter p l).
  - exact IH.
Qed.

Lemma filter_find_none {A} (p : A -> bool) l :
  find p l = None -> filter p l = [].
Proof.
  induction l as [| y l IH]; cbn; [reflexivity |].
  destruct (p y); [discriminate | exact IH].
Qed.

Lemma predict_month_after_datetime model y m d t :
  Date.datetime y m 1 = Ok d -> 0 < months_ahead_of d ->
  _predict_month model y m t =
  try_reraise "Month prediction failed: "
    (forecast <- model_forecast model (months_ahead_of d) ;;
     let target_prediction :=
       filter (fun r => period_eqb (ds r) (y, m)) forecast in
     if (List.length target_prediction =? 0)%nat then
       raise (ValueError ("No prediction found for "
                          ++ Date.strftime_B_Y d)%string)
     else
       prediction_data <- lift (index_first target_prediction) ;;
       ret (forecast_entry y d prediction_data)) t.
Proof.
  intros Hd Hh. unfold _predict_month, try_reraise.
  rewrite (bind_eq_ok _ _ t d t) by (unfold lift; rewrite Hd; reflexivity).
  apply Z.leb_gt in Hh. rewrite Hh.
  apply datetime_ok in Hd. destruct Hd as (-> & _). reflexivity.
Qed.

(** X1.  Past the cut-off, [_predict_month] asks the model once, for the
    horizon, and reports the first row of the forecast that falls in the
    target month: its three values rounded to two decimals, both bounds
    present, no note. *)
Theorem predict_month_reports_first_matching_row model y m d t fc row :
  Date.datetime y m 1 = Ok d ->
  0 < months_ahead_of d ->
  model (months_ahead_of d) = Ok fc ->
  find (fun r => period_eqb (ds r) (y, m)) fc = Some row ->
  _predict_month model y m t
  = (Ok {| month := Date.strftime_B d;
           year := y;
           predicted_price := round2 (yhat row);
           lower_bound := Some (round2 (yhat_lower row));
           upper_bound := Some (round2 (yhat_upper row));
           note := None |},
     t ++ [ModelForecast (horizon y m)]).
Proof.
  intros Hd Hh Hm Hf.
  rewrite (predict_month_after_datetime model y m d t Hd Hh).
  apply datetime_ok in Hd. destruct Hd as (-> & _).
  rewrite months_ahead_of_mk in *. fold (horizon y m) in *.
  unfold try_reraise, model_forecast, bind, emit, lift. rewrite Hm.
  apply filter_find_some in Hf. destruct Hf as (rest & ->).
  reflexivity.
Qed.

Lemma predict_month_reports_first_matching_row_witness :
  _predict_month ramp_model 2025 3 []
  = (Ok {| month := "March"; year := 2025; predicted_price := 30;
           lower_bound := Some 29%Q; upper_bound := Some 31%Q;
           note := None |},
     [ModelForecast 3]).
Proof.
  apply (predict_month_reports_first_matching_row ramp_model 2025 3
           (Date.mk 2025 3 1) []
           (match ramp_model 3 with Ok fc => fc | Err _ => [] end)
           (mk_row (2025, 3) 30 29 31)).
  - reflexivity.
  - vm_compute. reflexivity.
  - vm_compute. reflexivity.
  - vm_compute. reflexivity.
Defined.

(** X2.  When no row of the forecast falls in the target month the method
    fails with "Month prediction failed: No prediction found for <Month>
    <year>", after its one request to the model. *)
Theorem predict_month_no_matching_row model y m d t fc :
  Date.datetime y m 1 = Ok d ->
  0 < months_ahead_of d ->
  model (months_ahead_of d) = Ok fc ->
  find (fun r => period_eqb (ds r) (y, m)) fc = None ->
  _predict_month model y m t
  = (Err (Exception ("Month prediction failed: No prediction found for "
                     ++ Date.strftime_B d ++ " " ++ str y)%string),
     t ++ [ModelForecast (horizon y m)]).
Proof.
  intros Hd Hh Hm Hf.
  rewrite (predict_month_after_datetime model y m d t Hd Hh).
  apply datetime_ok in Hd. destruct Hd as (-> & _).
  rewrite months_ahead_of_mk in *. fold (horizon y m) in *.
  unfold try_reraise, model_forecast, bind, emit, lift. rewrite Hm.
  rewrite (filter_find_none _ _ Hf). reflexivity.
Qed.

Lemma predict_month_no_matching_row_witness :
  _predict_month empty_model 2025 3 []
  = (Err (Exception
            "Month prediction failed: No prediction found for March 2025"),
     [ModelForecast 3]).
Proof.
  apply (predict_month_no_matching_row empty_model 2025 3
           (Date.mk 2025 3 1) [] []).
  - reflexivity.
  - vm_compute. reflexivity.
  - reflexivity.
  - reflexivity.
Defined.

Lemma predict_month_model_failure model y m t e :
  1 <= y <= 9999 -> 1 <= m <= 12 -> 0 < horizon y m ->
  model (horizon y m) = Err e ->
  _predict_month model y m t
  = (Err (Exception ("Month prediction failed: " ++ exn_str e)%string),
     t ++ [ModelForecast (horizon y m)]).
Proof.
  intros Hy Hm Hh He.
  rewrite (predict_month_after_datetime model y m (Date.mk y m 1) t)
    by (try (apply datetime_valid; assumption);
        rewrite months_ahead_of_mk; exact Hh).
  rewrite months_ahead_of_mk. fold (horizon y m).
  unfold try_reraise, model_forecast, bind, emit, lift. rewrite He.
  reflexivity.
Qed.

(** X3.  When the model raises, [_predict_month] raises "Month prediction
    failed: " followed by the model's message; the request had been made. *)
Theorem predict_month_wraps_model_failure model y m d t e :
  Date.datetime y m 1 = Ok d ->
  0 < months_ahead_of d ->
  model (months_ahead_of d) = Err e ->
  _predict_month model y m t
  = (Err (Exception ("Month prediction failed: " ++ exn_str e)%string),
     t ++ [ModelForecast (horizon y m)]).
Proof.
  intros Hd Hh Hm.
  rewrite (predict_month_after_datetime model y m d t Hd Hh).
  apply datetime_ok in Hd. destruct Hd as (-> & _).
  rewrite months_ahead_of_mk in *. fold (horizon y m) in *.
  unfold try_reraise, model_forecast, bind, emit, lift. rewrite Hm.
  reflexivity.
Qed.

Lemma predict_month_wraps_model_failure_witness :
  _predict_month broken_model 2026 1 []
  = (Err (Exception "Month prediction failed: model unavailable"),
     [ModelForecast 13]).
Proof.
  apply (predict_month_wraps_model_failure broken_model 2026 1
           (Date.mk 2026 1 1) [] (PyExc "RuntimeError" "model unavailable")).
  - reflexivity.
  - vm_compute. reflexivity.
  - reflexivity.
Defined.

Lemma datetime_invalid y m :
  ~ (1 <= y <= 9999 /\ 1 <= m <= 12) ->
  exists e, Date.datetime y m 1 = Err e.
Proof.
  intros H. unfold Date.datetime, Date.MINYEAR, Date.MAXYEAR.
  destruct (Date.int_arg_error y); [eexists; reflexivity |].
  destruct (Date.int_arg_error m); [eexists; reflexivity |].
  destruct (Date.int_arg_error 1); [eexists; reflexivity |].
  destruct ((1 <=? y) && (y <=? 9999)) eqn:Hy; cbn [negb];
    [| eexists; reflexivity].
  destruct ((1 <=? m) && (m <=? 12)) eqn:Hm; cbn [negb];
    [| eexists; reflexivity].
  exfalso. apply H. apply andb_true_iff in Hy, Hm.
  destruct Hy, Hm. lia.
Qed.

(** X4.  A year outside 1..9999 or a month outside 1..12 makes
    [_predict_month] fail with a "Month prediction failed: " message
    before anything is asked of the model. *)
Theorem predict_month_rejects_invalid_date model y m t :
  ~ (1 <= y <= 9999 /\ 1 <= m <= 12) ->
  exists msg,
    _predict_month model y m t
    = (Err (Exception ("Month prediction failed: " ++ msg)%string), t).
Proof.
  intros H. destruct (datetime_invalid y m H) as (e & He).
  exists (exn_str e). unfold _predict_month.
  apply try_reraise_eq_err. apply bind_eq_err.
  unfold lift. now rewrite He.
Qed.

Lemma predict_month_rejects_invalid_date_witness :
  exists msg,
    _predict_month ramp_model 2025 13 []
    = (Err (Exception ("Month prediction failed: " ++ msg)%string), []).
Proof.
  apply (predict_month_rejects_invalid_date ramp_model 2025 13 []). lia.
Defined.

(** ** [predict_year]: failure, and the two sides of the cut-off *)

Lemma map_m_pure {A B} (f : A -> M B) (g : A -> B) xs t :
  (forall x, In x xs -> f x t = (Ok (g x), t)) ->
  map_m f xs t = (Ok (map g xs), t).
Proof.
  induction xs as [| x xs IH]; intros H; [reflexivity |].
  cbn [map_m map].
  rewrite (bind_eq_ok _ _ t (g x) t) by (apply H; now left).
  rewrite (bind_eq_ok _ _ t (map g xs) t)
    by (apply IH; intros z Hz; apply H; now right).
  reflexivity.
Qed.

Lemma map_m_trace {A B} (f : A -> M B) (ev : A -> event) xs :
  (forall x t, In x xs -> snd (f x t) = t ++ [ev x]) ->
  forall t bs t', map_m f xs t = (Ok bs, t') -> t' = t ++ map ev xs.
Proof.
  induction xs as [| x xs IH]; intros H t bs t' Hm.
  - inversion Hm. cbn. now rewrite app_nil_r.
  - cbn [map_m] in Hm. apply bind_ok in Hm.
    destruct Hm as (b & t1 & Hb & Hm).
    apply bind_ok in Hm. destruct Hm as (bs' & t2 & Hm & R).
    inversion R. subst.
    pose proof (H x t (or_introl eq_refl)) as Hx. rewrite Hb in Hx.
    cbn in Hx. subst t1.
    rewrite (IH (fun z u Hz => H z u (or_intror Hz)) _ _ _ Hm).
    cbn [map]. now rewrite <- app_assoc.
Qed.

Lemma predict_year_before_cutoff model y t :
  1 <= y <= 2024 ->
  predict_year model y t
  = (Ok (map (fun m => historical y (Date.mk y m 1)) (range 1 13)), t).
Proof.
  intros Hy. rewrite predict_year_map_m. apply try_reraise_eq_ok.
  apply map_m_pure. intros m Hm. apply in_range in Hm.
  apply predict_month_historical.
  - apply datetime_valid; lia.
  - rewrite months_ahead_of_mk. lia.
Qed.

(** X5.  [predict_year] is all or nothing: when the forecast of a month
    fails after the earlier months succeeded, the method raises "Year
    prediction failed: " followed by that month's message, returns no
    entry, and does not go on to the later months. *)
Theorem predict_year_all_or_nothing model y t ms1 m ms2 ps t1 e t2 :
  range 1 13 = ms1 ++ m :: ms2 ->
  map_m (_predict_month model y) ms1 t = (Ok ps, t1) ->
  _predict_month model y m t1 = (Err e, t2) ->
  predict_year model y t
  = (Err (Exception ("Year prediction failed: " ++ exn_str e)%string), t2).
Proof.
  intros Hr H1 H2. rewrite predict_year_map_m, Hr.
  apply try_reraise_eq_err.
  eapply map_m_fail_fast; eassumption.
Qed.

Lemma predict_year_all_or_nothing_witness :
  predict_year
    (fun p => if p <=? 6 then ramp_model p
              else Err (PyExc "RuntimeError" "horizon too long")) 2025 []
  = (Err (Exception
            "Year prediction failed: Month prediction failed: horizon too long"),
     map ModelForecast [1; 2; 3; 4; 5; 6; 7]).
Proof.
  apply (predict_year_all_or_nothing
           (fun p => if p <=? 6 then ramp_model p
                     else Err (PyExc "RuntimeError" "horizon too long"))
           2025 [] [1; 2; 3; 4; 5; 6] 7 [8; 9; 10; 11; 12]
           (match fst (map_m (_predict_month
                                (fun p => if p <=? 6 then ramp_model p
                                          else Err (PyExc "RuntimeError"
                                                      "horizon too long"))
                                2025) [1; 2; 3; 4; 5; 6] []) with
            | Ok ps => ps | Err _ => [] end)
           (map ModelForecast [1; 2; 3; 4; 5; 6])
           (Exception "Month prediction failed: horizon too long")).
  - reflexivity.
  - vm_compute. reflexivity.
  - vm_compute. reflexivity.
Defined.

(** X6.  For a year from 1 to 2024 [predict_year] succeeds whatever the
    model is and without asking it anything: it returns the twelve
    historical entries, January to December, each priced 0 with the note
    "Historical data" and no bounds. *)
Theorem predict_year_before_cutoff_needs_no_model model y t :
  1 <= y <= 2024 ->
  exists ps,
    predict_year model y t = (Ok ps, t)
    /\ map month ps = Date.month_names
    /\ Forall (fun p => year p = y
                        /\ predicted_price p = 0%Q
                        /\ note p = Some "Historical data"%string
                        /\ lower_bound p = None /\ upper_bound p = None) ps.
Proof.
  intros Hy. eexists. split; [apply predict_year_before_cutoff; exact Hy |].
  split; [reflexivity |].
  apply Forall_forall. intros p Hp. apply in_map_iff in Hp.
  destruct Hp as (m & <- & _). cbn. auto.
Qed.

Lemma predict_year_before_cutoff_needs_no_model_witness :
  exists ps, predict_year broken_model 2024 [] = (Ok ps, [])
             /\ map month ps = Date.month_names.
Proof.
  destruct (predict_year_before_cutoff_needs_no_model broken_model 2024 [])
    as (ps & H & Hm & _).
  - lia.
  - exists ps. split; [exact H | exact Hm].
Defined.

Lemma predict_month_future_shape model y m d t p t' :
  Date.datetime y m 1 = Ok d -> 0 < months_ahead_of d ->
  _predict_month model y m t = (Ok p, t') ->
  note p = None /\ lower_bound p <> None /\ upper_bound p <> None.
Proof.
  intros Hd Hh H.
  rewrite (predict_month_after_datetime model y m d t Hd Hh) in H.
  apply try_reraise_ok in H. apply bind_ok in H.
  destruct H as (fc & t1 & _ & H).
  cbv zeta in H. destruct (List.length _ =? 0)%nat; [discriminate H |].
  apply bind_ok in H. destruct H as (row & t2 & _ & H).
  inversion H. subst. cbn. repeat split; discriminate.
Qed.

(** X7.  For a year from 2025 on, a successful [predict_year] has asked the
    model exactly twelve times, once per month in calendar order, each
    time for the whole horizon from the cut-off to that month; every entry
    then has both bounds and no note. *)
Theorem predict_year_after_cutoff_asks_twelve_times model y t ps t' :
  2025 <= y ->
  predict_year model y t = (Ok ps, t') ->
  t' = t ++ map (fun m => ModelForecast (horizon y m)) (range 1 13)
  /\ Forall (fun p => note p = None
                      /\ lower_bound p <> None /\ upper_bound p <> None) ps.
Proof.
  intros Hy H. pose proof (predict_year_valid _ _ _ _ _ H) as Hv.
  apply predict_year_ok in H. split.
  - eapply map_m_trace; [| exact H].
    intros m u Hm. apply in_range in Hm.
    rewrite (predict_month_future_trace model y m (Date.mk y m 1) u).
    + now rewrite months_ahead_of_mk.
    + apply datetime_valid; lia.
    + rewrite months_ahead_of_mk. lia.
  - apply map_m_Forall2 in H.
    assert (G : forall ms qs,
               Forall2 (fun m p => exists t1 t2,
                          _predict_month model y m t1 = (Ok p, t2)) ms qs ->
               (forall m, In m ms -> 1 <= m <= 12) ->
               Forall (fun p => note p = None /\ lower_bound p <> None
                                /\ upper_bound p <> None) qs).
    { induction 1 as [| m p ms qs (t1 & t2 & Hp) _ IH]; intros Hin;
        constructor.
      - eapply (predict_month_future_shape model y m (Date.mk y m 1));
          [| | exact Hp].
        + apply datetime_valid; [lia | apply Hin; now left].
        + rewrite months_ahead_of_mk.
          pose proof (Hin m (or_introl eq_refl)). lia.
      - apply IH. intros z Hz. apply Hin. now right. }
    apply (G _ _ H). intros m Hm. apply in_range in Hm. lia.
Qed.

Lemma predict_year_after_cutoff_asks_twelve_times_witness :
  snd (predict_year ramp_model 2026 [])
  = map ModelForecast [13; 14; 15; 16; 17; 18; 19; 20; 21; 22; 23; 24].
Proof.
  apply (predict_year_after_cutoff_asks_twelve_times ramp_model 2026 []
           (match fst (predict_year ramp_model 2026 []) with
            | Ok ps => ps | Err _ => [] end)
           (snd (predict_year ramp_model 2026 []))).
  - lia.
  - vm_compute. reflexivity.
Defined.

(** ** [get_best_months]: failures and the figures it reports *)

(** X8.  For every year from 1 to 2024, whatever the model is,
    [get_best_months] raises "Best months analysis failed: float division
    by zero": the year is historical, all twelve prices are 0 and so is the
    average buy price.  Nothing is asked of the model. *)
Theorem get_best_months_before_cutoff_fails model y t :
  1 <= y <= 2024 ->
  get_best_months model y t
  = (Err (Exception "Best months analysis failed: float division by zero"),
     t).
Proof.
  intros Hy. rewrite get_best_months_unfold.
  rewrite (predict_year_before_cutoff model y t Hy).
  unfold try_reraise.
  rewrite (rank_year_spec y _ t (historical 0 last_training_date))
    by reflexivity.
  assert (Z0 : PrimFloat.is_zero
                 (avg_buy_of
                    (map (fun m => historical y (Date.mk y m 1))
                         (range 1 13))) = true)
    by (vm_compute; reflexivity).
  rewrite Z0. reflexivity.
Qed.

Lemma get_best_months_before_cutoff_fails_witness :
  get_best_months broken_model 1999 [ModelForecast 2]
  = (Err (Exception "Best months analysis failed: float division by zero"),
     [ModelForecast 2]).
Proof.
  apply (get_best_months_before_cutoff_fails broken_model 1999
           [ModelForecast 2]).
  lia.
Defined.

Lemma listed_prices model y t r t' :
  get_best_months model y t = (Ok r, t') ->
  exists ps,
    predict_year model y t = (Ok ps, t')
    /\ map price (best_buy_months r)
       = map predicted_price (firstn 3 (sorted predicted_price ps))
    /\ map price (best_sell_months r)
       = map predicted_price (skipn 9 (sorted predicted_price ps))
    /\ avg_buy_of ps
       = (sum (map as_float (map price (best_buy_months r))) / 3)%float
    /\ avg_sell_of ps
       = (sum (map as_float (map price (best_sell_months r))) / 3)%float.
Proof.
  intros H.
  destruct (get_best_months_ok _ _ _ _ _ (historical 0 last_training_date) H)
    as (ps & Hp & Hbuy & Hsell & _).
  exists ps. split; [exact Hp |].
  assert (Hb : map price (best_buy_months r)
               = map predicted_price (firstn 3 (sorted predicted_price ps)))
    by (rewrite Hbuy, map_map; reflexivity).
  assert (Hs : map price (best_sell_months r)
               = map predicted_price (skipn 9 (sorted predicted_price ps)))
    by (rewrite Hsell, map_map; reflexivity).
  split; [exact Hb |]. split; [exact Hs |].
  unfold avg_buy_of, avg_sell_of, slice_to, slice_last.
  rewrite sorted_length, (predict_year_length _ _ _ _ _ Hp), Hb, Hs.
  rewrite !map_map. split; reflexivity.
Qed.

(** X9.  The figures of a returned analysis are those of the months it
    lists, computed as the code computes them: [average_buy_price] and
    [average_sell_price] are the double means (sum from the left, divided
    by 3) of the three listed buy prices and of the three listed sell
    prices, rounded to two decimals; the margin is [round(..., 2)] of
    (sell - buy) / buy * 100 on the two unrounded means; the buy mean is
    not a zero; and the year is the one asked for. *)
Theorem analysis_figures_match_listed_months model y t r t' :
  get_best_months model y t = (Ok r, t') ->
  let buy := (sum (map as_float (map price (best_buy_months r))) / 3)%float in
  let sell :=
    (sum (map as_float (map price (best_sell_months r))) / 3)%float in
  bm_year r = y
  /\ average_buy_price (profit_analysis r) = float_round2 buy
  /\ average_sell_price (profit_analysis r) = float_round2 sell
  /\ potential_profit_margin (profit_analysis r)
     = float_round2 ((sell - buy) / buy * 100)%float
  /\ PrimFloat.is_zero buy = false.
Proof.
  intros H buy sell.
  destruct (listed_prices _ _ _ _ _ H) as (ps & Hp & _ & _ & Hb & Hs).
  destruct (get_best_months_ok _ _ _ _ _ (historical 0 last_training_date) H)
    as (ps' & Hp' & _ & _ & _ & _ & Hm & Hab & Has & Hnz).
  rewrite Hp in Hp'. inversion Hp'. subst ps'.
  subst buy sell. rewrite <- Hb, <- Hs.
  split; [| repeat split; assumption].
  rewrite get_best_months_unfold, Hp in H. apply try_reraise_ok in H.
  rewrite (rank_year_spec y ps t' (historical 0 last_training_date)) in H
    by (eapply predict_year_length; eassumption).
  destruct (PrimFloat.is_zero (avg_buy_of ps)); [discriminate H |].
  inversion H. reflexivity.
Qed.

(** With -0.2, -0.1 and 0.3 as the three lowest prices the double sum is
    -5.551115123125783e-17, not 0: the analysis is returned. *)
Lemma analysis_figures_match_listed_months_witness :
  exists r,
    fst (get_best_months cancelling_model 2025 []) = Ok r
    /\ average_buy_price (profit_analysis r)
       = float_round2
           (sum (map as_float (map price (best_buy_months r))) / 3)%float
    /\ average_buy_price (profit_analysis r) = (-0)%float.
Proof.
  pose (r0 := match fst (get_best_months cancelling_model 2025 []) with
              | Ok r => r | Err _ => no_result end).
  pose (t0 := snd (get_best_months cancelling_model 2025 [])).
  assert (H : get_best_months cancelling_model 2025 [] = (Ok r0, t0))
    by (vm_compute; reflexivity).
  pose proof (analysis_figures_match_listed_months
                cancelling_model 2025 [] r0 t0 H) as P.
  cbv zeta in P. destruct P as (_ & Hb & _).
  exists r0. split; [vm_compute; reflexivity |].
  split; [exact Hb | vm_compute; reflexivity].
Defined.

(** With 10^308 in every month the sum of three prices overflows: both
    means are infinite, their difference is not a number, and so is the
    margin; nothing is raised. *)
Lemma overflowing_sum_gives_nan_margin :
  exists r,
    fst (get_best_months huge_model 2025 []) = Ok r
    /\ average_buy_price (profit_analysis r) = infinity
    /\ average_sell_price (profit_analysis r) = infinity
    /\ PrimFloat.is_nan (potential_profit_margin (profit_analysis r)) = true.
Proof.
  eexists. split; [vm_compute; reflexivity |].
  repeat split; vm_compute; reflexivity.
Qed.

(** ** Rounding to two decimals *)

Lemma round_half_even_bounds q :
  (q - (1#2) <= inject_Z (round_half_even q) <= q + (1#2))%Q.
Proof.
  destruct q as [n d]. unfold round_half_even. cbn [Qnum Qden].
  pose proof (Z.div_mod n (Zpos d) ltac:(lia)) as E.
  pose proof (Z.mod_pos_bound n (Zpos d) ltac:(lia)) as B.
  set (f := n / Zpos d) in *. set (r := n mod Zpos d) in *.
  assert (G : forall k, (k = f \/ k = f + 1) -> -Zpos d <= 2 * (k * Zpos d - n) <= Zpos d ->
     ((n # d) - (1#2) <= inject_Z k <= (n # d) + (1#2))%Q).
  { intros k _ Hk. unfold Qle, Qminus, Qplus, Qopp, inject_Z. cbn. split; nia. }
  destruct (Z.compare_spec (2 * r) (Zpos d)) as [H|H|H].
  - destruct (Z.even f); apply G; auto; nia.
  - apply G; auto; nia.
  - apply G; auto; nia.
Qed.

Lemma round2_close q : (q - (1#200) <= round2 q <= q + (1#200))%Q.
Proof.
  unfold round2. rewrite Qred_correct.
  pose proof (round_half_even_bounds (q * 100)) as [H1 H2].
  set (k := inject_Z (round_half_even (q * 100))) in *.
  split.
  - apply Qle_shift_div_l; [reflexivity|]. lra.
  - apply Qle_shift_div_r; [reflexivity|]. lra.
Qed.

Lemma round2_hundredths q : exists k : Z, (round2 q == inject_Z k / 100)%Q.
Proof. eexists. unfold round2. apply Qred_correct. Qed.

Lemma round_half_even_tie q :
  (inject_Z (round_half_even q) == q + (1#2) \/ inject_Z (round_half_even q) == q - (1#2))%Q ->
  Z.even (round_half_even q) = true.
Proof.
  destruct q as [n d]. unfold round_half_even. cbn [Qnum Qden].
  pose proof (Z.div_mod n (Zpos d) ltac:(lia)) as E.
  pose proof (Z.mod_pos_bound n (Zpos d) ltac:(lia)) as B.
  set (f := n / Zpos d) in *. set (r := n mod Zpos d) in *.
  assert (G : forall k, (inject_Z k == (n # d) + (1#2) \/ inject_Z k == (n # d) - (1#2))%Q ->
            2 * k * Zpos d = 2 * n + Zpos d \/ 2 * k * Zpos d = 2 * n - Zpos d).
  { intros k [H|H]; unfold Qeq, Qminus, Qplus, Qopp, inject_Z in H; cbn in H; [left|right]; nia. }
  intros H.
  destruct (Z.compare_spec (2 * r) (Zpos d)) as [C|C|C].
  - destruct (Z.even f) eqn:Ev; [exact Ev|].
    rewrite Z.even_add. rewrite Ev. reflexivity.
  - apply G in H. exfalso. nia.
  - apply G in H. exfalso. nia.
Qed.

Lemma round_half_even_mono q1 q2 : (q1 <= q2)%Q -> round_half_even q1 <= round_half_even q2.
Proof.
  intros H.
  destruct (Z_le_gt_dec (round_half_even q1) (round_half_even q2)) as [L|G]; [exact L|].
  exfalso.
  pose proof (round_half_even_bounds q1) as [A1 B1]. pose proof (round_half_even_bounds q2) as [A2 B2].
  pose proof (round_half_even_tie q1) as T1. pose proof (round_half_even_tie q2) as T2.
  set (k1 := round_half_even q1) in *. set (k2 := round_half_even q2) in *.
  assert (Hk : k1 = k2 + 1).
  { assert (inject_Z k1 <= inject_Z k2 + 1)%Q by lra.
    change 1%Q with (inject_Z 1) in H0.
    rewrite <- (inject_Z_plus k2 1) in H0. rewrite <- Zle_Qle in H0. lia. }
  assert (E1 : (inject_Z k1 == q1 + (1#2))%Q).
  { rewrite Hk, inject_Z_plus in *. change (inject_Z 1) with 1%Q in *. lra. }
  assert (E2 : (inject_Z k2 == q2 - (1#2))%Q).
  { rewrite Hk, inject_Z_plus in *. change (inject_Z 1) with 1%Q in *. lra. }
  specialize (T1 (or_introl E1)). specialize (T2 (or_intror E2)).
  rewrite Hk, Z.even_add, T2 in T1. discriminate T1.
Qed.

Lemma round2_mono q1 q2 : (q1 <= q2)%Q -> (round2 q1 <= round2 q2)%Q.
Proof.
  intros H. unfold round2. rewrite !Qred_correct.
  assert (M : round_half_even (q1 * 100) <= round_half_even (q2 * 100))
    by (apply round_half_even_mono; lra).
  rewrite Zle_Qle in M.
  apply Qle_shift_div_l; [reflexivity|].
  set (a := inject_Z (round_half_even (q1*100))) in *.
  set (b := inject_Z (round_half_even (q2*100))) in *.
  assert (a / 100 * 100 == a)%Q by (field).
  lra.
Qed.

(** X10.  An entry returned for a month past the cut-off always comes from
    a row of the model's forecast that falls in that month: its price is a
    whole number of hundredths within 0.005 of the row's [yhat], and when
    the row has [yhat_lower <= yhat <= yhat_upper] the reported bounds
    enclose the reported price. *)
Theorem future_entry_comes_from_model_row model y m d t p t' :
  Date.datetime y m 1 = Ok d ->
  0 < months_ahead_of d ->
  _predict_month model y m t = (Ok p, t') ->
  exists fc row,
    model (horizon y m) = Ok fc
    /\ In row fc /\ ds row = (y, m)
    /\ (yhat row - (1 # 200) <= predicted_price p <= yhat row + (1 # 200))%Q
    /\ (exists k : Z, (predicted_price p == inject_Z k / 100)%Q)
    /\ ((yhat_lower row <= yhat row <= yhat_upper row)%Q ->
        exists lo hi,
          lower_bound p = Some lo /\ upper_bound p = Some hi
          /\ (lo <= predicted_price p <= hi)%Q).
Proof.
  intros Hd Hh H.
  rewrite (predict_month_after_datetime model y m d t Hd Hh) in H.
  apply datetime_ok in Hd. destruct Hd as (-> & _).
  rewrite months_ahead_of_mk in *. fold (horizon y m) in *.
  apply try_reraise_ok in H. apply bind_ok in H.
  destruct H as (fc & t1 & Hfc & H).
  unfold model_forecast, bind, emit, lift in Hfc.
  destruct (model (horizon y m)) as [fc' | e] eqn:Hm; [| discriminate Hfc].
  inversion Hfc. subst fc' t1. clear Hfc.
  cbv zeta in H.
  destruct (filter (fun r => period_eqb (ds r) (y, m)) fc)
    as [| row rest] eqn:Hf; [discriminate H |].
  cbn in H. inversion H. subst. clear H.
  assert (Hin : In row (filter (fun r => period_eqb (ds r) (y, m)) fc))
    by (rewrite Hf; now left).
  apply filter_In in Hin. destruct Hin as (Hin & Hds).
  exists fc, row. split; [reflexivity |]. split; [exact Hin |].
  split.
  { unfold period_eqb in Hds. cbn [fst snd] in Hds.
    apply andb_true_iff in Hds. destruct Hds as [A B].
    apply Z.eqb_eq in A, B. destruct (ds row) as [a b]. cbn in *. congruence. }
  cbn [predicted_price lower_bound upper_bound forecast_entry].
  split; [apply round2_close |]. split; [apply round2_hundredths |].
  intros [L U]. exists (round2 (yhat_lower row)), (round2 (yhat_upper row)).
  repeat split; now apply round2_mono.
Qed.

Lemma future_entry_comes_from_model_row_witness :
  exists fc row,
    ramp_model 3 = Ok fc /\ In row fc /\ ds row = (2025, 3).
Proof.
  destruct (future_entry_comes_from_model_row ramp_model 2025 3
              (Date.mk 2025 3 1) []
              (mk_prediction "March" 2025 30 (Some 29%Q) (Some 31%Q) None)
              [ModelForecast 3])
    as (fc & row & H1 & H2 & H3 & _).
  - reflexivity.
  - vm_compute. reflexivity.
  - vm_compute. reflexivity.
  - exists fc, row. auto.
Defined.

(** X11.  In a returned analysis every listed buy price is at most every
    listed sell price, every listed price lies between [annual_low] and
    [annual_high], and [annual_low] is at most [annual_high]. *)
Theorem recommended_prices_are_ordered model y t r t' :
  get_best_months model y t = (Ok r, t') ->
  (forall a b, In a (best_buy_months r) -> In b (best_sell_months r) ->
               (price a <= price b)%Q)
  /\ (forall a, In a (best_buy_months r ++ best_sell_months r) ->
                (annual_low (profit_analysis r) <= price a)%Q
                /\ (price a <= annual_high (profit_analysis r))%Q)
  /\ (annual_low (profit_analysis r) <= annual_high (profit_analysis r))%Q.
Proof.
  intros H.
  destruct (get_best_months_ok _ _ _ _ _ (historical 0 last_training_date) H)
    as (ps & Hp & Hbuy & Hsell & Hlow & Hhigh & _).
  pose proof (sorted_ascending predicted_price ps) as Hs.
  pose proof (sorted_perm predicted_price ps) as Hperm.
  set (s := sorted predicted_price ps) in *.
  split; [| split].
  - intros a b Ha Hb. rewrite Hbuy in Ha. rewrite Hsell in Hb.
    apply in_map_iff in Ha, Hb.
    destruct Ha as (p & <- & Ha). destruct Hb as (q & <- & Hb). cbn.
    apply (ascending_app predicted_price (firstn 3 s) (skipn 3 s)).
    + now rewrite firstn_skipn.
    + exact Ha.
    + change 9%nat with (6 + 3)%nat in Hb. rewrite <- skipn_skipn in Hb.
      eapply in_skipn_in. exact Hb.
  - intros a Ha. rewrite Hlow, Hhigh.
    assert (Hin : exists p, In p ps /\ price a = predicted_price p).
    { apply in_app_or in Ha. destruct Ha as [Ha | Ha].
      - rewrite Hbuy in Ha. apply in_map_iff in Ha.
        destruct Ha as (p & <- & Ha). exists p. split; [| reflexivity].
        apply (Permutation_in _ Hperm). eapply in_firstn_in. exact Ha.
      - rewrite Hsell in Ha. apply in_map_iff in Ha.
        destruct Ha as (p & <- & Ha). exists p. split; [| reflexivity].
        apply (Permutation_in _ Hperm). eapply in_skipn_in. exact Ha. }
    destruct Hin as (p & Hin & ->).
    split; [now apply ranked_low_is_minimum
           | now apply ranked_high_is_maximum].
  - rewrite Hlow, Hhigh.
    pose proof (predict_year_length _ _ _ _ _ Hp) as Hl.
    destruct ps as [| p0 ps0]; [discriminate Hl |].
    eapply Qle_trans.
    + apply (ranked_low_is_minimum (p0 :: ps0) _ p0). now left.
    + apply (ranked_high_is_maximum (p0 :: ps0) _ p0). now left.
Qed.

Lemma recommended_prices_are_ordered_witness :
  (annual_low (profit_analysis
                 (match fst (get_best_months tie_model 2025 []) with
                  | Ok r => r | Err _ => no_result end))
   <= annual_high (profit_analysis
                     (match fst (get_best_months tie_model 2025 []) with
                      | Ok r => r | Err _ => no_result end)))%Q.
Proof.
  pose (r0 := match fst (get_best_months tie_model 2025 []) with
              | Ok r => r | Err _ => no_result end).
  pose (t0 := snd (get_best_months tie_model 2025 [])).
  assert (H : get_best_months tie_model 2025 [] = (Ok r0, t0))
    by (vm_compute; reflexivity).
  exact (proj2 (proj2 (recommended_prices_are_ordered
                         tie_model 2025 [] r0 t0 H))).
Defined.

(** ** The seasonal reasons *)

Lemma dict_get_missing {V} (d : list (string * V)) key default :
  ~ In key (map fst d) -> dict_get d key default = default.
Proof.
  induction d as [| [k v] d IH]; cbn; intros H; [reflexivity |].
  destruct (String.eqb k key) eqn:E.
  - apply String.eqb_eq in E. exfalso. apply H. now left.
  - apply IH. intros C. apply H. now right.
Qed.

Lemma month_reasons_in_tables :
  Forall (fun name =>
            In (name, _get_buy_reason name) buy_reasons
            /\ In (name, _get_sell_reason name) sell_reasons
            /\ _get_buy_reason name <> "Good buying conditions"%string
            /\ _get_sell_reason name <> "High demand period"%string)
         Date.month_names.
Proof.
  unfold Date.month_names.
  repeat (constructor;
          [ split; [cbn; repeat (first [left; reflexivity | right]) |];
            split; [cbn; repeat (first [left; reflexivity | right]) |];
            split; cbn; discriminate |]).
  constructor.
Qed.

(** X12.  Every month recommended by [get_best_months] carries the reason
    its name has in the buy table, respectively the sell table; the
    generic fall-back texts never appear in a result. *)
Theorem recommendations_use_table_reasons model y t r t' :
  get_best_months model y t = (Ok r, t') ->
  Forall (fun a => In (rec_month a, reason a) buy_reasons
                   /\ reason a <> "Good buying conditions"%string)
         (best_buy_months r)
  /\ Forall (fun b => In (rec_month b, reason b) sell_reasons
                      /\ reason b <> "High demand period"%string)
            (best_sell_months r).
Proof.
  intros H.
  destruct (get_best_months_ok _ _ _ _ _ (historical 0 last_training_date) H)
    as (ps & Hp & Hbuy & Hsell & _).
  pose proof month_reasons_in_tables as T. rewrite Forall_forall in T.
  assert (Hname : forall p, In p (sorted predicted_price ps) ->
                            In (month p) Date.month_names).
  { intros p Hin. rewrite <- (predict_year_months _ _ _ _ _ Hp).
    apply in_map. exact (Permutation_in _ (sorted_perm _ ps) Hin). }
  split; apply Forall_forall; intros a Ha.
  - rewrite Hbuy in Ha. apply in_map_iff in Ha. destruct Ha as (p & <- & Ha).
    apply in_firstn_in in Ha. destruct (T _ (Hname p Ha)) as (A & _ & B & _).
    cbn. split; assumption.
  - rewrite Hsell in Ha. apply in_map_iff in Ha. destruct Ha as (p & <- & Ha).
    apply in_skipn_in in Ha. destruct (T _ (Hname p Ha)) as (_ & A & _ & B).
    cbn. split; assumption.
Qed.

Lemma recommendations_use_table_reasons_witness :
  Forall (fun a => In (rec_month a, reason a) buy_reasons
                   /\ reason a <> "Good buying conditions"%string)
         (best_buy_months
            (match fst (get_best_months ramp_model 2025 []) with
             | Ok r => r
             | Err _ => no_result
             end)).
Proof.
  apply (recommendations_use_table_reasons ramp_model 2025 [] _
           (snd (get_best_months ramp_model 2025 []))).
  vm_compute. reflexivity.
Defined.

(** X13.  The reason look-ups fall back to the generic text exactly for
    names that are not one of the twelve English month names spelled as
    [strftime('%B')] spells them. *)
Theorem reason_lookup_falls_back_on_unknown_names name :
  (~ In name Date.month_names ->
   _get_buy_reason name = "Good buying conditions"%string
   /\ _get_sell_reason name = "High demand period"%string)
  /\ (In name Date.month_names ->
      _get_buy_reason name <> "Good buying conditions"%string
      /\ _get_sell_reason name <> "High demand period"%string).
Proof.
  split.
  - intros H. split; apply dict_get_missing; exact H.
  - intros H. pose proof month_reasons_in_tables as T.
    rewrite Forall_forall in T. destruct (T _ H) as (_ & _ & A & B).
    split; assumption.
Qed.

Lemma reason_lookup_falls_back_on_unknown_names_witness :
  _get_buy_reason "january" = "Good buying conditions"%string
  /\ _get_sell_reason "December" <> "High demand period"%string.
Proof.
  split.
  - apply (proj1 (reason_lookup_falls_back_on_unknown_names "january")).
    cbn. intuition discriminate.
  - apply (proj2 (reason_lookup_falls_back_on_unknown_names "December")).
    cbn. auto 20.
Defined.

(** ** [get_multi_year_predictions] and [generate_price_chart] at the edges *)

Lemma range_empty lo hi : hi <= lo -> range lo hi = [].
Proof.
  intros H. unfold range. replace (Z.to_nat (hi - lo)) with 0%nat by lia.
  reflexivity.
Qed.

Lemma range_cons lo hi : lo < hi -> range lo hi = lo :: range (lo + 1) hi.
Proof.
  intros H. unfold range.
  replace (Z.to_nat (hi - lo)) with (S (Z.to_nat (hi - (lo + 1)))) by lia.
  cbn [seq map]. f_equal; [lia |].
  rewrite <- seq_shift, map_map. apply map_ext. intros i. lia.
Qed.

Lemma generate_price_chart_unfold model now stamp years t :
  generate_price_chart model now stamp years t =
  match get_multi_year_predictions model now years t with
  | (Ok d, t') =>
      (Ok ("chickmash_predictions_" ++ stamp ++ ".png")%string,
       t' ++ [Plot (fst (chart_series d)) (snd (chart_series d))])
  | (Err e, t') =>
      (Err (Exception ("Chart generation failed: " ++ exn_str e)%string), t')
  end.
Proof.
  unfold generate_price_chart, try_reraise, bind.
  destruct (get_multi_year_predictions model now years t) as [[d | e] t'];
    [| reflexivity].
  destruct (chart_series d) as [labels prices]. reflexivity.
Qed.

(** X14.  Asked for no years, or a negative number of them,
    [get_multi_year_predictions] returns the empty mapping without
    consulting the model, and [generate_price_chart] still succeeds: it
    plots an empty series and returns the chart's file name. *)
Theorem no_years_gives_empty_forecast_and_chart model now stamp years t :
  years <= 0 ->
  get_multi_year_predictions model now years t = (Ok [], t)
  /\ generate_price_chart model now stamp years t
     = (Ok ("chickmash_predictions_" ++ stamp ++ ".png")%string,
        t ++ [Plot [] []]).
Proof.
  intros H.
  assert (E : get_multi_year_predictions model now years t = (Ok [], t)).
  { rewrite get_multi_year_predictions_map_m, range_empty by lia.
    reflexivity. }
  split; [exact E |].
  rewrite generate_price_chart_unfold, E. reflexivity.
Qed.

Lemma no_years_gives_empty_forecast_and_chart_witness :
  generate_price_chart broken_model 2025 "20250101_000000" (-2) []
  = (Ok "chickmash_predictions_20250101_000000.png"%string, [Plot [] []]).
Proof.
  apply (no_years_gives_empty_forecast_and_chart broken_model 2025
           "20250101_000000" (-2) []).
  lia.
Defined.

Lemma predict_year_first_request_fails model y t e :
  2025 <= y <= 9999 ->
  model (horizon y 1) = Err e ->
  predict_year model y t
  = (Err (Exception ("Year prediction failed: Month prediction failed: "
                     ++ exn_str e)%string),
     t ++ [ModelForecast (horizon y 1)]).
Proof.
  intros Hy He. rewrite predict_year_map_m.
  change (range 1 13) with ([] ++ 1 :: range 2 13).
  erewrite try_reraise_eq_err.
  2:{ eapply map_m_fail_fast; [reflexivity |].
      apply predict_month_model_failure; try lia; [unfold horizon; lia |].
      exact He. }
  reflexivity.
Qed.

(** X15.  When the model fails on the first request of the current year,
    2025 or later, every method reports the whole chain of causes after
    that single request: [get_best_months] as "Best months analysis failed:
    Year prediction failed: Month prediction failed: <model's message>",
    and, for one year or more, [get_multi_year_predictions] and
    [generate_price_chart] with their own prefixes in front; no chart is
    plotted. *)
Theorem model_failure_surfaces_with_cause_chain model now stamp years t e :
  2025 <= now <= 9999 ->
  1 <= years ->
  model (horizon now 1) = Err e ->
  let chain :=
    ("Year prediction failed: Month prediction failed: " ++ exn_str e)%string
  in
  get_best_months model now t
  = (Err (Exception ("Best months analysis failed: " ++ chain)%string),
     t ++ [ModelForecast (horizon now 1)])
  /\ get_multi_year_predictions model now years t
     = (Err (Exception ("Multi-year prediction failed: " ++ chain)%string),
        t ++ [ModelForecast (horizon now 1)])
  /\ generate_price_chart model now stamp years t
     = (Err (Exception ("Chart generation failed: Multi-year prediction failed: "
                        ++ chain)%string),
        t ++ [ModelForecast (horizon now 1)]).
Proof.
  intros Hnow Hyears He chain.
  pose proof (predict_year_first_request_fails model now t e Hnow He) as Hy.
  assert (Hmulti : get_multi_year_predictions model now years t
                   = (Err (Exception ("Multi-year prediction failed: "
                                      ++ chain)%string),
                      t ++ [ModelForecast (horizon now 1)])).
  { rewrite get_multi_year_predictions_map_m, range_cons by lia.
    cbn [map_m]. rewrite (bind_eq_err _ _ _ _ _ Hy). reflexivity. }
  split; [| split].
  - rewrite get_best_months_unfold, Hy. reflexivity.
  - exact Hmulti.
  - rewrite generate_price_chart_unfold, Hmulti. reflexivity.
Qed.

Lemma model_failure_surfaces_with_cause_chain_witness :
  generate_price_chart broken_model 2026 "20260101_000000" 3 []
  = (Err (Exception
            "Chart generation failed: Multi-year prediction failed: Year prediction failed: Month prediction failed: model unavailable"),
     [ModelForecast 13]).
Proof.
  apply (model_failure_surfaces_with_cause_chain broken_model 2026
           "20260101_000000" 3 []
           (PyExc "RuntimeError" "model unavailable")).
  - lia.
  - lia.
  - reflexivity.
Defined.

(** ** Methods only append to the trace *)

Lemma appends_ret {A} (a : A) : appends (ret a).
Proof. exists (Ok a), []. intros t. unfold ret. now rewrite app_nil_r. Qed.

Lemma appends_raise {A} (e : exn) : appends (@raise A e).
Proof. exists (Err e), []. intros t. unfold raise. now rewrite app_nil_r. Qed.

Lemma appends_lift {A} (r : result A) : appends (lift r).
Proof. exists r, []. intros t. unfold lift. now rewrite app_nil_r. Qed.

Lemma appends_emit (e : event) : appends (emit e).
Proof. exists (Ok tt), [e]. intros t. reflexivity. Qed.

Lemma appends_bind {A B} (m : M A) (k : A -> M B) :
  appends m -> (forall a, appends (k a)) -> appends (bind m k).
Proof.
  intros (r & evs & Hm) Hk. destruct r as [a | e].
  - destruct (Hk a) as (r2 & evs2 & Hka).
    exists r2, (evs ++ evs2). intros t. unfold bind.
    rewrite Hm, Hka. now rewrite app_assoc.
  - exists (Err e), evs. intros t. unfold bind. now rewrite Hm.
Qed.

Lemma appends_try_reraise {A} prefix (m : M A) :
  appends m -> appends (try_reraise prefix m).
Proof.
  intros (r & evs & Hm). destruct r as [a | e].
  - exists (Ok a), evs. intros t. unfold try_reraise. now rewrite Hm.
  - exists (Err (Exception (prefix ++ exn_str e)%string)), evs.
    intros t. unfold try_reraise. now rewrite Hm.
Qed.

Lemma appends_for_each {A B} (body : B -> A -> M B) :
  (forall acc x, appends (body acc x)) ->
  forall xs acc, appends (for_each xs body acc).
Proof.
  intros Hb. induction xs as [| x xs IH]; intros acc; cbn [for_each].
  - apply appends_ret.
  - apply appends_bind; [apply Hb | intros a; apply IH].
Qed.

Lemma appends_eq {A} (m : M A) :
  appends m -> forall t, m t = (outcome m, t ++ emitted m).
Proof.
  intros (r & evs & Hm) t. unfold outcome, emitted.
  rewrite (Hm []), Hm. reflexivity.
Qed.

Lemma appends_predict_month model y m : appends (_predict_month model y m).
Proof.
  unfold _predict_month. apply appends_try_reraise.
  apply appends_bind; [apply appends_lift |]. intros d. cbv zeta.
  destruct (months_ahead_of d <=? 0); [apply appends_ret |].
  apply appends_bind.
  - unfold model_forecast.
    apply appends_bind; [apply appends_emit | intros _; apply appends_lift].
  - intros fc. destruct (List.length _ =? 0)%nat; [apply appends_raise |].
    apply appends_bind; [apply appends_lift | intros; apply appends_ret].
Qed.

Lemma appends_predict_year model y : appends (predict_year model y).
Proof.
  unfold predict_year. apply appends_try_reraise, appends_for_each.
  intros acc m.
  apply appends_bind; [apply appends_predict_month | intros; apply appends_ret].
Qed.

Lemma appends_get_best_months model y : appends (get_best_months model y).
Proof.
  unfold get_best_months. apply appends_try_reraise.
  apply appends_bind; [apply appends_predict_year |]. intros ps.
  unfold rank_year. cbv zeta.
  repeat (apply appends_bind; [apply appends_lift | intros ?]).
  apply appends_ret.
Qed.

Lemma appends_get_multi_year_predictions model now years :
  appends (get_multi_year_predictions model now years).
Proof.
  unfold get_multi_year_predictions. cbv zeta.
  apply appends_try_reraise, appends_for_each. intros acc y.
  apply appends_bind; [apply appends_predict_year | intros; apply appends_ret].
Qed.

(** ** The views *)

Ltac run_view :=
  repeat match goal with
         | |- context [match ?x with _ => _ end] =>
             lazymatch x with
             | context [match _ with _ => _ end] => fail
             | _ => destruct x
             end
         end;
  do 2 eexists; (split; [reflexivity |]);
  unfold envelope_ok, json_success, json_error; cbn;
  first [ left; repeat split; (discriminate || reflexivity)
        | right; repeat split;
          first [ discriminate | reflexivity
                | left; reflexivity | right; reflexivity ] ].

(** X16.  Whatever the request, the parser and the predictor do, each of
    the five views returns a response and never raises; the response is
    either status 200 with [success] true, data and a message, or status
    400 or 500 with [success] false and an error text. *)
Theorem views_always_answer_with_an_envelope
    int_of_str now (predictor : predictor_t) request t :
  (exists r t', views.best_buy_months int_of_str now predictor request t
                = (Ok r, t') /\ envelope_ok r)
  /\ (exists r t', views.best_sell_months int_of_str now predictor request t
                   = (Ok r, t') /\ envelope_ok r)
  /\ (exists r t', views.price_predictions int_of_str predictor request t
                   = (Ok r, t') /\ envelope_ok r)
  /\ (exists r t', views.generate_price_chart int_of_str predictor request t
                   = (Ok r, t') /\ envelope_ok r)
  /\ (exists r t', views.complete_analysis int_of_str now predictor request t
                   = (Ok r, t') /\ envelope_ok r).
Proof.
  repeat split.
  - unfold views.best_buy_months, views.try_500, views.int_param,
      bind, lift, ret. run_view.
  - unfold views.best_sell_months, views.try_500, views.int_param,
      bind, lift, ret. run_view.
  - unfold views.price_predictions, views.try_500, views.int_param,
      bind, lift, ret. run_view.
  - unfold views.generate_price_chart, views.try_500, views.int_param,
      bind, lift, ret. run_view.
  - unfold views.complete_analysis, views.try_500, views.int_param,
      bind, lift, ret. run_view.
Qed.

(** X17.  A [year] parameter that [int] cannot parse makes each of the
    three year-taking views answer 500 with the parser's message; the
    predictor is not called. *)
Theorem unparsable_year_answers_500
    int_of_str now (predictor : predictor_t) request t e :
  requested_year int_of_str now request = Err e ->
  views.best_buy_months int_of_str now predictor request t
  = (Ok (json_error (exn_str e) 500), t)
  /\ views.best_sell_months int_of_str now predictor request t
     = (Ok (json_error (exn_str e) 500), t)
  /\ views.complete_analysis int_of_str now predictor request t
     = (Ok (json_error (exn_str e) 500), t).
Proof.
  intros H.
  assert (P : views.int_param int_of_str request "year" now t = (Err e, t))
    by (now rewrite int_param_year, H).
  unfold views.best_buy_months, views.best_sell_months,
    views.complete_analysis, views.try_500.
  rewrite !(bind_eq_err _ _ _ _ _ P). repeat split.
Qed.

Lemma unparsable_year_answers_500_witness :
  views.complete_analysis int_of_digits 2025
    (ChickMashPredictor ramp_model 2025 "20250101_000000")
    (mk_request [("year", "next")]) []
  = (Ok (json_error "invalid literal for int() with base 10: 'next'" 500), []).
Proof.
  apply (unparsable_year_answers_500 int_of_digits 2025
           (ChickMashPredictor ramp_model 2025 "20250101_000000")
           (mk_request [("year", "next")]) []
           (ValueError "invalid literal for int() with base 10: 'next'")).
  reflexivity.
Defined.

(** X18.  [best_buy_months] and [best_sell_months] treat a request alike:
    they make the same calls, answer with the same status and error, and
    on success carry the same profit analysis and year; only the list of
    months differs. *)
Theorem buy_and_sell_views_agree
    int_of_str now (predictor : predictor_t) request t :
  exists b s t',
    views.best_buy_months int_of_str now predictor request t = (Ok b, t')
    /\ views.best_sell_months int_of_str now predictor request t = (Ok s, t')
    /\ status b = status s /\ error b = error s
    /\ match data b, data s with
       | Some (BuyData _ pa y), Some (SellData _ pa' y') => pa = pa' /\ y = y'
       | None, None => True
       | _, _ => False
       end.
Proof.
  unfold views.best_buy_months, views.best_sell_months, views.try_500,
    views.int_param, bind, lift, ret.
  repeat match goal with
         | |- context [match ?x with _ => _ end] =>
             lazymatch x with
             | context [match _ with _ => _ end] => fail
             | _ => destruct x
             end
         end;
    do 3 eexists; (split; [reflexivity |]); (split; [reflexivity |]);
    cbn; auto.
Qed.

Lemma string_app_assoc (a b c : string) :
  ((a ++ b) ++ c = a ++ (b ++ c))%string.
Proof.
  induction a as [| x a IH]; cbn; [reflexivity | now rewrite IH].
Qed.

Lemma basename_from_no_slash s :
  has_slash s = false -> forall acc, basename_from acc s = (acc ++ s)%string.
Proof.
  induction s as [| c s IH]; cbn; intros H acc.
  - induction acc as [| x acc IHa]; cbn; [reflexivity | now rewrite <- IHa].
  - apply orb_false_iff in H. destruct H as [Hc Hs].
    rewrite Hc, (IH Hs), string_app_assoc. reflexivity.
Qed.

Lemma has_slash_app a b :
  has_slash (a ++ b)%string = has_slash a || has_slash b.
Proof.
  induction a as [| x a IH]; cbn; [reflexivity |].
  now rewrite IH, orb_assoc.
Qed.

(** X19.  When the time stamp contains no slash, a successful answer of the
    [generate_price_chart] view names the file
    "chickmash_predictions_<stamp>.png" and gives "/media/" followed by
    that same name as its URL. *)
Theorem chart_url_is_media_plus_file_name
    int_of_str model now stamp request t r t' :
  has_slash stamp = false ->
  views.generate_price_chart int_of_str
    (ChickMashPredictor model now stamp) request t = (Ok r, t') ->
  status r = 200 ->
  data r = Some (ChartData
                   ("chickmash_predictions_" ++ stamp ++ ".png")%string
                   ("/media/chickmash_predictions_" ++ stamp ++ ".png")%string).
Proof.
  intros Hs H H200.
  assert (B : basename ("chickmash_predictions_" ++ stamp ++ ".png")%string
              = ("chickmash_predictions_" ++ stamp ++ ".png")%string).
  { unfold basename. rewrite basename_from_no_slash; [reflexivity |].
    rewrite !has_slash_app, Hs. reflexivity. }
  unfold views.generate_price_chart, views.try_500 in H.
  cbn [p_generate_price_chart ChickMashPredictor] in H.
  destruct (views.int_param int_of_str request "years" 3 t)
    as [[years | e] t1] eqn:P.
  - rewrite (bind_eq_ok _ _ _ _ _ P) in H. unfold bind in H.
    rewrite generate_price_chart_unfold in H.
    destruct (get_multi_year_predictions model now years t1) as [[d | e] t2].
    + unfold ret in H. rewrite B in H.
      assert (Hr : r = json_success
                         (ChartData
                            ("chickmash_predictions_" ++ stamp ++ ".png")%string
                            ("/media/" ++ "chickmash_predictions_" ++ stamp
                             ++ ".png")%string)
                         ("Price chart generated for " ++ str years
                          ++ " years")%string) by congruence.
      rewrite Hr. reflexivity.
    + inversion H. subst. discriminate H200.
  - rewrite (bind_eq_err _ _ _ _ _ P) in H. inversion H. subst.
    discriminate H200.
Qed.

Lemma chart_url_is_media_plus_file_name_witness :
  data (match fst (views.generate_price_chart int_of_digits
                     (ChickMashPredictor ramp_model 2025 "20250101_000000")
                     (mk_request [("years", "1")]) []) with
        | Ok r => r | Err _ => json_error "" 0 end)
  = Some (ChartData "chickmash_predictions_20250101_000000.png"
                    "/media/chickmash_predictions_20250101_000000.png").
Proof.
  apply (chart_url_is_media_plus_file_name int_of_digits ramp_model 2025
           "20250101_000000" (mk_request [("years", "1")]) [] _
           (snd (views.generate_price_chart int_of_digits
                   (ChickMashPredictor ramp_model 2025 "20250101_000000")
                   (mk_request [("years", "1")]) []))).
  - reflexivity.
  - vm_compute. reflexivity.
  - vm_compute. reflexivity.
Defined.

(** X20.  Without a [years] parameter a successful [price_predictions]
    answer covers three years, the current one and the two after it, in
    that order, twelve months each. *)
Theorem price_predictions_default_three_years
    int_of_str model now stamp request t r t' :
  QueryDict_get (GET request) "years" = None ->
  views.price_predictions int_of_str
    (ChickMashPredictor model now stamp) request t = (Ok r, t') ->
  status r = 200 ->
  exists d,
    data r = Some (PredictionsData d)
    /\ map fst d = [now; now + 1; now + 2]
    /\ Forall (fun e => List.length (snd e) = 12%nat) d
    /\ message r = Some "Price predictions for next 3 years"%string.
Proof.
  intros Hq H H200.
  unfold views.price_predictions, views.try_500, views.int_param in H.
  rewrite Hq in H. cbn [p_get_multi_year_predictions ChickMashPredictor] in H.
  unfold bind, ret in H.
  destruct (get_multi_year_predictions model now 3 t) as [[d | e] t1] eqn:E.
  - inversion H. subst. exists d. split; [reflexivity |].
    apply get_multi_year_predictions_ok in E. destruct E as (Hk & _ & Hm).
    split.
    { rewrite Hk. rewrite (range_cons now), (range_cons (now + 1)),
        (range_cons (now + 1 + 1)), range_empty by lia.
      replace (now + 1 + 1) with (now + 2) by lia. reflexivity. }
    split; [| reflexivity].
    apply map_m_Forall2 in Hm. rewrite <- Hk in Hm.
    apply Forall2_fst_snd in Hm.
    eapply Forall_impl; [| exact Hm]. intros e (u1 & u2 & He).
    eapply predict_year_length. exact He.
  - inversion H. subst. discriminate H200.
Qed.

Lemma price_predictions_default_three_years_witness :
  exists d,
    data (match fst (views.price_predictions int_of_digits
                       (ChickMashPredictor ramp_model 2025 "s")
                       (mk_request []) []) with
          | Ok r => r | Err _ => json_error "" 0 end)
    = Some (PredictionsData d)
    /\ map fst d = [2025; 2026; 2027].
Proof.
  destruct (price_predictions_default_three_years int_of_digits ramp_model
              2025 "s" (mk_request []) []
              (match fst (views.price_predictions int_of_digits
                            (ChickMashPredictor ramp_model 2025 "s")
                            (mk_request []) []) with
               | Ok r => r | Err _ => json_error "" 0 end)
              (snd (views.price_predictions int_of_digits
                      (ChickMashPredictor ramp_model 2025 "s")
                      (mk_request []) [])))
    as (d & Hd & Hk & _).
  - reflexivity.
  - vm_compute. reflexivity.
  - vm_compute. reflexivity.
  - exists d. split; [exact Hd | exact Hk].
Defined.

(** X21.  A successful [complete_analysis] forecasts the chart years
    twice: once for the predictions it returns and once more inside the
    chart generation, after the year analysis.  The model being the same
    function both times, the chart plots exactly the predictions
    returned. *)
Theorem complete_analysis_forecasts_chart_years_twice
    int_of_str model now stamp request t y c b preds :
  requested_year int_of_str now request = Ok y ->
  (forall u, views.int_param int_of_str request "chart_years" 3 u = (Ok c, u)) ->
  outcome (get_best_months model y) = Ok b ->
  outcome (get_multi_year_predictions model now c) = Ok preds ->
  let path := ("chickmash_predictions_" ++ stamp ++ ".png")%string in
  views.complete_analysis int_of_str now
    (ChickMashPredictor model now stamp) request t
  = (Ok (json_success
           (CompleteData b preds path ("/media/" ++ basename path)%string)
           ("Complete chicken mash analysis for " ++ str y)%string),
     t ++ emitted (get_best_months model y)
       ++ emitted (get_multi_year_predictions model now c)
       ++ emitted (get_multi_year_predictions model now c)
       ++ [Plot (fst (chart_series preds)) (snd (chart_series preds))]).
Proof.
  intros Hy Hc Hb Hp path.
  pose proof (appends_eq _ (appends_get_best_months model y)) as Eb.
  pose proof (appends_eq _ (appends_get_multi_year_predictions model now c))
    as Em.
  rewrite Hb in Eb. rewrite Hp in Em.
  unfold views.complete_analysis, views.try_500.
  rewrite (bind_eq_ok _ _ t y t) by (now rewrite int_param_year, Hy).
  rewrite (bind_eq_ok _ _ t c t) by apply Hc.
  cbn [p_get_best_months p_get_multi_year_predictions p_generate_price_chart
       ChickMashPredictor].
  rewrite (bind_eq_ok _ _ _ _ _ (Eb t)).
  rewrite (bind_eq_ok _ _ _ _ _ (Em _)).
  erewrite bind_eq_ok
    by (rewrite generate_price_chart_unfold, Em; reflexivity).
  unfold ret. fold path. rewrite <- !app_assoc. reflexivity.
Qed.

Lemma complete_analysis_forecasts_chart_years_twice_witness :
  snd (views.complete_analysis int_of_digits 2025
         (ChickMashPredictor ramp_model 2025 "20250101_000000")
         (mk_request [("chart_years", "1")]) [])
  = map ModelForecast (range 1 13) ++ map ModelForecast (range 1 13)
    ++ map ModelForecast (range 1 13)
    ++ [Plot (fst (chart_series
                     (match outcome (get_multi_year_predictions
                                       ramp_model 2025 1) with
                      | Ok d => d | Err _ => [] end)))
             (snd (chart_series
                     (match outcome (get_multi_year_predictions
                                       ramp_model 2025 1) with
                      | Ok d => d | Err _ => [] end)))].
Proof.
  rewrite (complete_analysis_forecasts_chart_years_twice int_of_digits
             ramp_model 2025 "20250101_000000"
             (mk_request [("chart_years", "1")]) [] 2025 1
             (match outcome (get_best_months ramp_model 2025) with
              | Ok r => r
              | Err _ => no_result
              end)
             (match outcome (get_multi_year_predictions ramp_model 2025 1) with
              | Ok d => d | Err _ => [] end)).
  - vm_compute. reflexivity.
  - reflexivity.
  - intros u. reflexivity.
  - vm_compute. reflexivity.
  - vm_compute. reflexivity.
Defined.

(** X22.  A 200 answer of [best_buy_months] is always about a year that is
    not in the past, the year the request asked for, and lists exactly
    three months with the reasons of the buy table. *)
Theorem buy_answer_is_three_months_of_a_current_year
    int_of_str model now stamp request t r t' :
  views.best_buy_months int_of_str now
    (ChickMashPredictor model now stamp) request t = (Ok r, t') ->
  status r = 200 ->
  exists months analysis y,
    data r = Some (BuyData months analysis y)
    /\ requested_year int_of_str now request = Ok y
    /\ now <= y
    /\ List.length months = 3%nat
    /\ Forall (fun a => In (rec_month a, reason a) buy_reasons) months.
Proof.
  intros H H200.
  unfold views.best_buy_months, views.try_500 in H.
  pose proof (int_param_year int_of_str now request t) as P.
  destruct (requested_year int_of_str now request) as [y | e] eqn:Hy.
  - rewrite (bind_eq_ok _ _ _ _ _ P) in H.
    destruct (y <? now) eqn:Hlt.
    + inversion H. subst. discriminate H200.
    + cbn [p_get_best_months ChickMashPredictor] in H. unfold bind in H.
      destruct (get_best_months model y t) as [[bm | e] t1] eqn:E.
      * unfold ret in H.
        assert (Hd : data r = Some (BuyData (best_buy_months bm)
                                      (profit_analysis bm) y))
          by (inversion H; reflexivity).
        exists (best_buy_months bm), (profit_analysis bm), y.
        split; [exact Hd |]. split; [reflexivity |].
        split; [apply Z.ltb_ge in Hlt; exact Hlt |].
        destruct (get_best_months_ok _ _ _ _ _
                    (historical 0 last_training_date) E)
          as (ps & Hp & Hbuy & _).
        split.
        -- rewrite Hbuy, length_map, length_firstn, sorted_length,
             (predict_year_length _ _ _ _ _ Hp). reflexivity.
        -- pose proof month_reasons_in_tables as T.
           rewrite Forall_forall in T.
           apply Forall_forall. intros a Ha. rewrite Hbuy in Ha.
           apply in_map_iff in Ha. destruct Ha as (p & <- & Ha).
           apply in_firstn_in in Ha.
           apply (Permutation_in _ (sorted_perm predicted_price ps)) in Ha.
           apply (in_map month) in Ha.
           rewrite (predict_year_months _ _ _ _ _ Hp) in Ha.
           destruct (T _ Ha) as (A & _). exact A.
      * inversion H. subst. discriminate H200.
  - rewrite (bind_eq_err _ _ _ _ _ P) in H. inversion H. subst.
    discriminate H200.
Qed.

Lemma buy_answer_is_three_months_of_a_current_year_witness :
  exists months analysis y,
    data (match fst (views.best_buy_months int_of_digits 2025
                       (ChickMashPredictor ramp_model 2025 "s")
                       (mk_request [("year", "2026")]) []) with
          | Ok r => r | Err _ => json_error "" 0 end)
    = Some (BuyData months analysis y)
    /\ 2025 <= y /\ List.length months = 3%nat.
Proof.
  destruct (buy_answer_is_three_months_of_a_current_year int_of_digits
              ramp_model 2025 "s" (mk_request [("year", "2026")]) []
              (match fst (views.best_buy_months int_of_digits 2025
                            (ChickMashPredictor ramp_model 2025 "s")
                            (mk_request [("year", "2026")]) []) with
               | Ok r => r | Err _ => json_error "" 0 end)
              (snd (views.best_buy_months int_of_digits 2025
                      (ChickMashPredictor ramp_model 2025 "s")
                      (mk_request [("year", "2026")]) [])))
    as (months & analysis & y & Hd & _ & Hy & Hl & _).
  - vm_compute. reflexivity.
  - vm_compute. reflexivity.
  - exists months, analysis, y. auto.
Defined.

(** ** Construction *)

(** X23.  A predictor that was constructed holds a model: [__init__]
    returns only when the model file exists and [joblib] loaded it, and
    then the object's model is the loaded one.  A missing file makes it
    raise "Failed to load model: Model file not found: <path>", a loading
    error "Failed to load model: " followed by the loader's message. *)
Theorem constructed_predictor_holds_its_model
    (os_path_exists : string -> bool)
    (joblib_load : string -> result model_t) t :
  (forall self t',
     __init__ os_path_exists joblib_load t = (Ok self, t') ->
     exists loaded,
       obj_model self = Some loaded
       /\ joblib_load model_path = Ok loaded
       /\ os_path_exists model_path = true
       /\ obj_model_path self = model_path /\ t' = t)
  /\ (os_path_exists model_path = false ->
      __init__ os_path_exists joblib_load t
      = (Err (Exception ("Failed to load model: Model file not found: "
                         ++ model_path)%string), t))
  /\ (forall e,
        os_path_exists model_path = true ->
        joblib_load model_path = Err e ->
        __init__ os_path_exists joblib_load t
        = (Err (Exception ("Failed to load model: " ++ exn_str e)%string), t)).
Proof.
  unfold __init__, load_model, try_reraise, bind, lift, ret, raise.
  cbn [obj_model_path].
  split; [| split].
  - intros self t' H.
    destruct (os_path_exists model_path); [| discriminate H].
    destruct (joblib_load model_path) as [loaded | e]; [| discriminate H].
    inversion H. subst. exists loaded. cbn. repeat split.
  - intros E. rewrite E. reflexivity.
  - intros e E L. rewrite E, L. reflexivity.
Qed.

Lemma constructed_predictor_holds_its_model_witness :
  (exists loaded,
     obj_model (mk_obj model_path (Some ramp_model)) = Some loaded
     /\ load_ramp model_path = Ok loaded)
  /\ __init__ disk_without_model load_ramp []
     = (Err (Exception
               "Failed to load model: Model file not found: F:\Program Files\projects\book2\myproject\myapp\chick_mash_price_prophet_model.pkl"),
        [])
  /\ __init__ disk_with_model load_corrupt []
     = (Err (Exception "Failed to load model: invalid load key"), []).
Proof.
  destruct (constructed_predictor_holds_its_model disk_with_model load_ramp [])
    as (H1 & _).
  destruct (constructed_predictor_holds_its_model disk_without_model
              load_ramp []) as (_ & H2 & _).
  destruct (constructed_predictor_holds_its_model disk_with_model
              load_corrupt []) as (_ & _ & H3).
  split; [| split].
  - destruct (H1 (mk_obj model_path (Some ramp_model)) [])
      as (loaded & Hm & Hl & _); [reflexivity |].
    exists loaded. split; assumption.
  - apply H2. reflexivity.
  - apply (H3 (PyExc "UnpicklingError" "invalid load key")); reflexivity.
Defined.
